(** * The authentication context of [src/contexts/AuthContext.tsx]

    A shallow embedding of the [AuthProvider] component and of the
    [useAuth] hook, together with the statements the design document
    makes about them.

    The component is event driven.  Every piece of code that runs
    between two suspension points ([await]) is one atomic segment: it
    is embedded as a computation of the monad [M], which threads the
    component's variables and may complete abruptly with a thrown
    JavaScript error.  The environment (identity backend, profile
    store, timers, the user pressing buttons) is the type [Event];
    [handle] maps an event to the segment it triggers.  State updates
    requested in one segment are rendered together, so the states a
    consumer can observe are the states between two events. *)

From stdpp Require Import base list strings.

Open Scope string_scope.

(** ** Data *)

(** JavaScript error objects: [name] is read by the [catch] clause of
    [fetchUserProfile], [code] by its PostgREST error branch. *)
Record JsError := { name : string; code : string; message : string }.

Record User := { user_id : string; user_email : string }.

(** [Session.user] is read through [?.] everywhere, hence the option. *)
Record Session := { session_user : option User; access_token : string }.

(** A row of the [profiles] table. *)
Record Profile := {
  id : string;
  email : string;
  full_name : string;
  role : string
}.

(** How an awaited promise settles.  A rejection carries an error
    object, as the rejections of [fetch] and of the Supabase client
    do; a promise rejected with [null] or [undefined] is not
    described. *)
Inductive Settled (A : Type) : Type :=
| Resolved (a : A)
| Rejected (e : JsError).
Arguments Resolved {A} a.
Arguments Rejected {A} e.

(** [{ data: { session }, error }] of [supabase.auth.getSession()]. *)
Record SessionResponse := {
  currentSession : option Session;
  session_error : option JsError
}.

(** [{ data, error }] of the [profiles] query. *)
Record ProfileResponse := {
  data : option Profile;
  error : option JsError
}.

(** [{ data: { user, session }, error }] of [signInWithPassword] and
    [signUp]. *)
Record AuthResponse := {
  data_user : option User;
  data_session : option Session;
  auth_error : option JsError
}.

(** [{ error }] of [supabase.auth.signOut()] and of the profile insert. *)
Record ErrorResponse := { resp_error : option JsError }.

(** ** State *)

(** The four [useState] cells of [AuthProvider]: what a consumer sees. *)
Record AuthState := {
  user : option User;
  profile : option Profile;
  session : option Session;
  loading : bool
}.

(** The [let] variables of the effect closure. [profileFetchController]
    holds the index of an abort controller in [controllers]. *)
Record Closure := {
  mounted : bool;
  profileFetchController : option nat;
  initializationTimeout : bool
}.

(** What the JavaScript runtime holds for the component: the
    [AbortController] objects created so far (their [signal.aborted]
    flag, in creation order), whether the start-up timer is still
    scheduled, and the requests that have been issued and have not
    settled yet.  A profile request is recorded with the index of the
    controller whose signal it was given and the [userId] its
    continuation has captured. *)
Record Runtime := {
  controllers : list bool;
  timerScheduled : bool;
  sessionQuery : bool;
  fetches : list (nat * string);
  signIns : nat;
  signUps : nat;
  inserts : nat;
  signOuts : nat
}.

Record World := {
  ui : AuthState;
  vars : Closure;
  rt : Runtime
}.

(** ** The monad of segments: state and thrown errors *)

Inductive Completion (A : Type) : Type :=
| Normal (a : A)
| Throw (e : JsError).
Arguments Normal {A} a.
Arguments Throw {A} e.

Definition M (A : Type) : Type := World -> World * Completion A.

Definition ret {A} (a : A) : M A := fun w => (w, Normal a).

Definition bind {A B} (m : M A) (k : A -> M B) : M B :=
  fun w =>
    match m w with
    | (w', Normal a) => k a w'
    | (w', Throw e) => (w', Throw e)
    end.

Notation "x <- m ;; k" := (bind m (fun x => k))
  (at level 100, m at next level, right associativity).
Notation "m ;; k" := (bind m (fun _ => k))
  (at level 100, right associativity).

Definition throw {A} (e : JsError) : M A := fun w => (w, Throw e).

(** [try { body } catch (e) { handler e }] *)
Definition try_catch {A} (body : M A) (handler : JsError -> M A) : M A :=
  fun w =>
    match body w with
    | (w', Normal a) => (w', Normal a)
    | (w', Throw e) => handler e w'
    end.

(** [try { body } finally { final }]: [final] runs whichever way [body]
    completes, also after a [return] inside it. *)
Definition try_finally {A} (body : M A) (final : M unit) : M A :=
  fun w =>
    match body w with
    | (w', c) =>
        match final w' with
        | (w'', Normal _) => (w'', c)
        | (w'', Throw e) => (w'', Throw e)
        end
    end.

(** [await p] where [p] has settled as [r]. *)
Definition await {A} (r : Settled A) : M A :=
  match r with
  | Resolved a => ret a
  | Rejected e => throw e
  end.

Definition gets {A} (f : World -> A) : M A := fun w => (w, Normal (f w)).
Definition modify (f : World -> World) : M unit := fun w => (f w, Normal tt).

Definition when (b : bool) (m : M unit) : M unit := if b then m else ret tt.

(** The world a segment leaves behind, and the way it completes. *)
Definition exec {A} (m : M A) (w : World) : World := fst (m w).
Definition completion {A} (m : M A) (w : World) : Completion A := snd (m w).

(** ** Field updates *)

Definition with_ui (f : AuthState -> AuthState) (w : World) : World :=
  {| ui := f (ui w); vars := vars w; rt := rt w |}.
Definition with_vars (f : Closure -> Closure) (w : World) : World :=
  {| ui := ui w; vars := f (vars w); rt := rt w |}.
Definition with_rt (f : Runtime -> Runtime) (w : World) : World :=
  {| ui := ui w; vars := vars w; rt := f (rt w) |}.

Definition setUser (u : option User) : M unit :=
  modify (with_ui (fun s =>
    {| user := u; profile := profile s; session := session s; loading := loading s |})).
Definition setProfile (p : option Profile) : M unit :=
  modify (with_ui (fun s =>
    {| user := user s; profile := p; session := session s; loading := loading s |})).
Definition setSession (x : option Session) : M unit :=
  modify (with_ui (fun s =>
    {| user := user s; profile := profile s; session := x; loading := loading s |})).
Definition setLoading (b : bool) : M unit :=
  modify (with_ui (fun s =>
    {| user := user s; profile := profile s; session := session s; loading := b |})).

Definition set_mounted (b : bool) : M unit :=
  modify (with_vars (fun c =>
    {| mounted := b; profileFetchController := profileFetchController c;
       initializationTimeout := initializationTimeout c |})).
Definition set_profileFetchController (k : option nat) : M unit :=
  modify (with_vars (fun c =>
    {| mounted := mounted c; profileFetchController := k;
       initializationTimeout := initializationTimeout c |})).
Definition set_initializationTimeout (b : bool) : M unit :=
  modify (with_vars (fun c =>
    {| mounted := mounted c; profileFetchController := profileFetchController c;
       initializationTimeout := b |})).

Definition set_controllers (l : list bool) (r : Runtime) : Runtime :=
  {| controllers := l; timerScheduled := timerScheduled r;
     sessionQuery := sessionQuery r; fetches := fetches r;
     signIns := signIns r; signUps := signUps r; inserts := inserts r;
     signOuts := signOuts r |}.
Definition set_timerScheduled (b : bool) (r : Runtime) : Runtime :=
  {| controllers := controllers r; timerScheduled := b;
     sessionQuery := sessionQuery r; fetches := fetches r;
     signIns := signIns r; signUps := signUps r; inserts := inserts r;
     signOuts := signOuts r |}.
Definition set_sessionQuery (b : bool) (r : Runtime) : Runtime :=
  {| controllers := controllers r; timerScheduled := timerScheduled r;
     sessionQuery := b; fetches := fetches r;
     signIns := signIns r; signUps := signUps r; inserts := inserts r;
     signOuts := signOuts r |}.
Definition set_fetches (l : list (nat * string)) (r : Runtime) : Runtime :=
  {| controllers := controllers r; timerScheduled := timerScheduled r;
     sessionQuery := sessionQuery r; fetches := l;
     signIns := signIns r; signUps := signUps r; inserts := inserts r;
     signOuts := signOuts r |}.
Definition set_signIns (n : nat) (r : Runtime) : Runtime :=
  {| controllers := controllers r; timerScheduled := timerScheduled r;
     sessionQuery := sessionQuery r; fetches := fetches r;
     signIns := n; signUps := signUps r; inserts := inserts r;
     signOuts := signOuts r |}.
Definition set_signUps (n : nat) (r : Runtime) : Runtime :=
  {| controllers := controllers r; timerScheduled := timerScheduled r;
     sessionQuery := sessionQuery r; fetches := fetches r;
     signIns := signIns r; signUps := n; inserts := inserts r;
     signOuts := signOuts r |}.
Definition set_inserts (n : nat) (r : Runtime) : Runtime :=
  {| controllers := controllers r; timerScheduled := timerScheduled r;
     sessionQuery := sessionQuery r; fetches := fetches r;
     signIns := signIns r; signUps := signUps r; inserts := n;
     signOuts := signOuts r |}.
Definition set_signOuts (n : nat) (r : Runtime) : Runtime :=
  {| controllers := controllers r; timerScheduled := timerScheduled r;
     sessionQuery := sessionQuery r; fetches := fetches r;
     signIns := signIns r; signUps := signUps r; inserts := inserts r;
     signOuts := n |}.

(** ** Runtime services *)

(** [new AbortController()]: a fresh, unaborted controller. *)
Definition newAbortController : M nat :=
  k <- gets (fun w => length (controllers (rt w))) ;;
  modify (with_rt (fun r => set_controllers (controllers r ++ [false]) r)) ;;
  ret k.

(** [controller.abort()] *)
Definition abort (k : nat) : M unit :=
  modify (with_rt (fun r => set_controllers (<[k := true]> (controllers r)) r)).

(** [controller.signal.aborted] *)
Definition aborted (k : nat) : M bool :=
  gets (fun w => default false (controllers (rt w) !! k)).

(** [clearTimeout(initializationTimeout)] *)
Definition clearTimeout : M unit :=
  modify (with_rt (set_timerScheduled false)).

(** Issuing the [profiles] query with the signal of controller [k]. *)
Definition request_profile (k : nat) (userId : string) : M unit :=
  modify (with_rt (fun r => set_fetches (fetches r ++ [(k, userId)]) r)).

(** ** The effect of [AuthProvider] *)

(** [newSession?.user] *)
Definition opt_user (s : option Session) : option User :=
  match s with
  | Some x => session_user x
  | None => None
  end.

(** [resetAuthState] *)
Definition resetAuthState : M unit :=
  m <- gets (fun w => mounted (vars w)) ;;
  if negb m then ret tt else
  setUser None ;;
  setProfile None ;;
  setSession None ;;
  setLoading false.

(** [fetchUserProfile(userId)] up to its [await]. *)
Definition fetchUserProfile (userId : string) : M unit :=
  m <- gets (fun w => mounted (vars w)) ;;
  if negb m then ret tt else
  c <- gets (fun w => profileFetchController (vars w)) ;;
  match c with
  | Some k => abort k
  | None => ret tt
  end ;;
  k <- newAbortController ;;
  set_profileFetchController (Some k) ;;
  request_profile k userId.

(** [profileFetchController.signal.aborted], read after the [await]:
    the variable is dereferenced again, so this is the flag of
    whichever controller it holds by then. *)
Definition signal_aborted : M bool :=
  c <- gets (fun w => profileFetchController (vars w)) ;;
  match c with
  | Some k => aborted k
  | None =>
      throw {| name := "TypeError"; code := "";
               message := "Cannot read properties of null" |}
  end.

(** [fetchUserProfile(userId)] from its [await] on, the query having
    settled as [r]. *)
Definition fetchUserProfile_resume (userId : string)
    (r : Settled ProfileResponse) : M unit :=
  try_finally
    (try_catch
       (resp <- await r ;;
        m <- gets (fun w => mounted (vars w)) ;;
        stop <- (if negb m then ret true else signal_aborted) ;;
        if stop : bool then ret tt else
        match error resp with
        | Some e => setProfile None
        | None =>
            match data resp with
            | Some row => setProfile (Some row)
            | None =>
                throw {| name := "TypeError"; code := "";
                         message := "Cannot read properties of null" |}
            end
        end)
       (fun e =>
          if String.eqb (name e) "AbortError" then ret tt else
          m <- gets (fun w => mounted (vars w)) ;;
          when m (setProfile None)))
    (m <- gets (fun w => mounted (vars w)) ;;
     when m (setLoading false)).

(** The callback of the start-up timer. *)
Definition initializationTimeout_callback : M unit :=
  m <- gets (fun w => mounted (vars w)) ;;
  when m (setLoading false).

(** [initializeAuth()] up to its first [await]: the timer is set and
    the session query is issued. *)
Definition initializeAuth : M unit :=
  modify (with_rt (set_timerScheduled true)) ;;
  set_initializationTimeout true ;;
  modify (with_rt (set_sessionQuery true)).

(** [if (initializationTimeout) { clearTimeout(...); ... = null; }] *)
Definition clear_initializationTimeout : M unit :=
  t <- gets (fun w => initializationTimeout (vars w)) ;;
  when t (clearTimeout ;; set_initializationTimeout false).

(** [initializeAuth()] from its first [await] on, [getSession] having
    settled as [r].  Nothing follows the call of [fetchUserProfile]. *)
Definition initializeAuth_resume (r : Settled SessionResponse) : M unit :=
  try_catch
    (resp <- await r ;;
     m <- gets (fun w => mounted (vars w)) ;;
     if negb m then ret tt else
     clear_initializationTimeout ;;
     match session_error resp with
     | Some e => resetAuthState
     | None =>
         match opt_user (currentSession resp) with
         | Some u =>
             setSession (currentSession resp) ;;
             setUser (Some u) ;;
             fetchUserProfile (user_id u)
         | None => resetAuthState
         end
     end)
    (fun e =>
       clear_initializationTimeout ;;
       m <- gets (fun w => mounted (vars w)) ;;
       when m resetAuthState).

(** [handleAuthStateChange(event, newSession)] up to its [await]. *)
Definition handleAuthStateChange (event : string)
    (newSession : option Session) : M unit :=
  m <- gets (fun w => mounted (vars w)) ;;
  if negb m then ret tt else
  c <- gets (fun w => profileFetchController (vars w)) ;;
  match c with
  | Some k => abort k
  | None => ret tt
  end ;;
  setSession newSession ;;
  setUser (opt_user newSession) ;;
  match opt_user newSession with
  | Some u => fetchUserProfile (user_id u)
  | None => resetAuthState
  end.

(** The clean-up function the effect returns.  It also unsubscribes
    the listener; [handleAuthStateChange] returns at once when
    [mounted] is false, so a late delivery changes nothing either. *)
Definition cleanup : M unit :=
  set_mounted false ;;
  t <- gets (fun w => initializationTimeout (vars w)) ;;
  when t clearTimeout ;;
  c <- gets (fun w => profileFetchController (vars w)) ;;
  match c with
  | Some k => abort k
  | None => ret tt
  end.

(** ** The actions *)

(** [signIn] up to its [await]. *)
Definition signIn (email password : string) : M unit :=
  setLoading true ;;
  modify (with_rt (fun r => set_signIns (S (signIns r)) r)).

(** [signIn] after its [await]; the result is the [error] field of
    the object it returns. *)
Definition signIn_resume (r : Settled AuthResponse) : M (option JsError) :=
  try_catch
    (resp <- await r ;;
     match auth_error resp with
     | Some e => setLoading false ;; ret (Some e)
     | None =>
         match data_user resp, data_session resp with
         | Some _, Some _ => ret None
         | _, _ =>
             setLoading false ;;
             ret (Some {| name := "Error"; code := "";
                          message := "Authentication failed" |})
         end
     end)
    (fun e => setLoading false ;; ret (Some e)).

(** [signUp] up to its first [await]. *)
Definition signUp (email password fullName role : string) : M unit :=
  setLoading true ;;
  modify (with_rt (fun r => set_signUps (S (signUps r)) r)).

(** [signUp] between its two [await]s: [None] when it suspends again
    on the profile insert, [Some error] when it returns. *)
Definition signUp_resume (r : Settled AuthResponse)
    : M (option (option JsError)) :=
  try_catch
    (resp <- await r ;;
     match auth_error resp with
     | Some e => setLoading false ;; ret (Some (Some e))
     | None =>
         match data_user resp with
         | Some _ =>
             modify (with_rt (fun r => set_inserts (S (inserts r)) r)) ;;
             ret None
         | None => setLoading false ;; ret (Some None)
         end
     end)
    (fun e => setLoading false ;; ret (Some (Some e))).

(** [signUp] after the profile insert has settled. *)
Definition signUp_resume_insert (r : Settled ErrorResponse)
    : M (option JsError) :=
  try_catch
    (resp <- await r ;;
     match resp_error resp with
     | Some e => setLoading false ;; ret (Some e)
     | None => setLoading false ;; ret None
     end)
    (fun e => setLoading false ;; ret (Some e)).

(** [signOut] up to its [await]: the local state is cleared, then the
    backend call is issued. *)
Definition signOut : M unit :=
  setLoading true ;;
  setUser None ;;
  setProfile None ;;
  setSession None ;;
  modify (with_rt (fun r => set_signOuts (S (signOuts r)) r)).

(** [signOut] after its [await]: only logging, then the [finally]. *)
Definition signOut_resume (r : Settled ErrorResponse) : M unit :=
  try_finally
    (try_catch
       (resp <- await r ;; ret tt)
       (fun e => ret tt))
    (setLoading false).

(** ** The value given to consumers *)

Definition isAdmin (s : AuthState) : bool :=
  match profile s with
  | Some p => String.eqb (role p) "admin"
  | None => false
  end.

Definition isStudent (s : AuthState) : bool :=
  match profile s with
  | Some p => String.eqb (role p) "student"
  | None => false
  end.

Record AuthContextType := {
  ctx_user : option User;
  ctx_profile : option Profile;
  ctx_session : option Session;
  ctx_loading : bool;
  ctx_signIn : string -> string -> M unit;
  ctx_signUp : string -> string -> string -> string -> M unit;
  ctx_signOut : M unit;
  ctx_isAdmin : bool;
  ctx_isStudent : bool
}.

(** The object [value] built on every render. *)
Definition value (s : AuthState) : AuthContextType :=
  {| ctx_user := user s;
     ctx_profile := profile s;
     ctx_session := session s;
     ctx_loading := loading s;
     ctx_signIn := signIn;
     ctx_signUp := signUp;
     ctx_signOut := signOut;
     ctx_isAdmin := isAdmin s;
     ctx_isStudent := isStudent s |}.

(** [useContext(AuthContext)]: the value of the enclosing provider,
    or the default [undefined] of [createContext]. *)
Definition useContext (provider : option AuthState) : option AuthContextType :=
  match provider with
  | Some s => Some (value s)
  | None => None
  end.

(** [useAuth()] *)
Definition useAuth (provider : option AuthState) : Completion AuthContextType :=
  match useContext provider with
  | None =>
      Throw {| name := "Error"; code := "";
               message := "useAuth must be used within an AuthProvider" |}
  | Some context => Normal context
  end.

(** ** Events *)

Inductive Event : Type :=
| SessionQuerySettled (r : Settled SessionResponse)
| TimeoutElapsed
| AuthStateChange (event : string) (newSession : option Session)
| ProfileFetchSettled (k : nat) (r : Settled ProfileResponse)
| CallSignIn (email password : string)
| SignInSettled (r : Settled AuthResponse)
| CallSignUp (email password fullName role : string)
| SignUpSettled (r : Settled AuthResponse)
| InsertSettled (r : Settled ErrorResponse)
| CallSignOut
| SignOutSettled (r : Settled ErrorResponse)
| Unmount.

(** The outstanding profile request made with controller [k]. *)
Fixpoint pending_fetch (k : nat) (l : list (nat * string)) : option string :=
  match l with
  | [] => None
  | (k', userId) :: l' =>
      if Nat.eqb k k' then Some userId else pending_fetch k l'
  end.

Fixpoint remove_fetch (k : nat) (l : list (nat * string)) : list (nat * string) :=
  match l with
  | [] => []
  | (k', userId) :: l' =>
      if Nat.eqb k k' then l' else (k', userId) :: remove_fetch k l'
  end.

(** The segment an event triggers.  A settlement is delivered only to
    a request that is outstanding, and the timer callback runs only
    while the timer is scheduled. *)
Definition handle (e : Event) : M unit :=
  match e with
  | SessionQuerySettled r =>
      q <- gets (fun w => sessionQuery (rt w)) ;;
      if q : bool then
        modify (with_rt (set_sessionQuery false)) ;;
        initializeAuth_resume r
      else ret tt
  | TimeoutElapsed =>
      t <- gets (fun w => timerScheduled (rt w)) ;;
      if t : bool then
        modify (with_rt (set_timerScheduled false)) ;;
        initializationTimeout_callback
      else ret tt
  | AuthStateChange event newSession =>
      handleAuthStateChange event newSession
  | ProfileFetchSettled k r =>
      p <- gets (fun w => pending_fetch k (fetches (rt w))) ;;
      match p with
      | Some userId =>
          modify (with_rt (fun x => set_fetches (remove_fetch k (fetches x)) x)) ;;
          fetchUserProfile_resume userId r
      | None => ret tt
      end
  | CallSignIn email password => signIn email password
  | SignInSettled r =>
      n <- gets (fun w => signIns (rt w)) ;;
      match n with
      | S n' =>
          modify (with_rt (set_signIns n')) ;;
          signIn_resume r ;; ret tt
      | O => ret tt
      end
  | CallSignUp email password fullName role =>
      signUp email password fullName role
  | SignUpSettled r =>
      n <- gets (fun w => signUps (rt w)) ;;
      match n with
      | S n' =>
          modify (with_rt (set_signUps n')) ;;
          signUp_resume r ;; ret tt
      | O => ret tt
      end
  | InsertSettled r =>
      n <- gets (fun w => inserts (rt w)) ;;
      match n with
      | S n' =>
          modify (with_rt (set_inserts n')) ;;
          signUp_resume_insert r ;; ret tt
      | O => ret tt
      end
  | CallSignOut => signOut
  | SignOutSettled r =>
      n <- gets (fun w => signOuts (rt w)) ;;
      match n with
      | S n' =>
          modify (with_rt (set_signOuts n')) ;;
          signOut_resume r
      | O => ret tt
      end
  | Unmount => cleanup
  end.

Definition step (w : World) (e : Event) : World := exec (handle e) w.

Definition run (w : World) (es : list Event) : World := fold_left step es w.

(** The component before its effect has run: the initial values of
    the [useState] cells and of the closure variables. *)
Definition initial : World :=
  {| ui := {| user := None; profile := None; session := None; loading := true |};
     vars := {| mounted := true; profileFetchController := None;
                initializationTimeout := false |};
     rt := {| controllers := []; timerScheduled := false; sessionQuery := false;
              fetches := []; signIns := 0; signUps := 0; inserts := 0;
              signOuts := 0 |} |}.

(** The component once mounted: the listener is registered and
    [initializeAuth()] has run up to its [await]. *)
Definition AuthProvider : World := exec initializeAuth initial.

Definition reachable (w : World) : Prop := exists es, w = run AuthProvider es.

(** The state [{user: null, profile: null, session: null, loading: false}]. *)
Definition Unauthenticated : AuthState :=
  {| user := None; profile := None; session := None; loading := false |}.

(** ** Properties of states, used in the statements below *)

(** The profile, when there is one, is the profile of the user. *)
Definition profile_matches_user (s : AuthState) : bool :=
  match profile s with
  | None => true
  | Some p =>
      match user s with
      | Some u => String.eqb (id p) (user_id u)
      | None => false
      end
  end.

(** The request made with the controller that [profileFetchController]
    holds now is outstanding and that controller has not been aborted:
    the code has no epoch counter, this is its notion of a profile
    fetch that belongs to the current session. *)
Definition current_fetch_outstanding (w : World) : bool :=
  match profileFetchController (vars w) with
  | Some k =>
      match pending_fetch k (fetches (rt w)) with
      | Some _ => negb (default false (controllers (rt w) !! k))
      | None => false
      end
  | None => false
  end.


(** An event that neither resolves the session (query result or
    pushed change), nor is the timer, nor unmounts the component. *)
Definition leaves_session_unresolved (e : Event) : bool :=
  match e with
  | SessionQuerySettled _ | AuthStateChange _ _ | TimeoutElapsed | Unmount => false
  | _ => true
  end.

(** The session query found nothing: it was rejected, it reported an
    error, or it returned no session with a user. *)
Definition no_session (r : Settled SessionResponse) : bool :=
  match r with
  | Rejected _ => true
  | Resolved resp =>
      match session_error resp with
      | Some _ => true
      | None =>
          match opt_user (currentSession resp) with
          | Some _ => false
          | None => true
          end
      end
  end.

(** A settlement that reports a failure. *)
Definition failed {A} (err : A -> option JsError) (r : Settled A) : bool :=
  match r with
  | Rejected _ => true
  | Resolved resp =>
      match err resp with
      | Some _ => true
      | None => false
      end
  end.

(** [signIn] reports a failure to its caller. *)
Definition signIn_failed (r : Settled AuthResponse) : bool :=
  match r with
  | Rejected _ => true
  | Resolved resp =>
      match auth_error resp, data_user resp, data_session resp with
      | None, Some _, Some _ => false
      | _, _, _ => true
      end
  end.



(** ** The second implementation of the context

    The repository carries another version of the same component.  Its
    [signOut] waits 100 ms after the backend call before it returns;
    its role flags are computed the same way. *)
Module Part001.

(** [signOut] up to its first [await]. *)
Definition signOut : M unit :=
  setLoading true ;;
  setUser None ;;
  setProfile None ;;
  setSession None ;;
  modify (with_rt (fun r => set_signOuts (S (signOuts r)) r)).

(** [signOut] once the backend call has settled: [false] when it
    suspends again on the delay, [true] when it has returned (the
    rejection was caught and the [finally] has run). *)
Definition signOut_resume (r : Settled ErrorResponse) : M bool :=
  match r with
  | Resolved resp => ret false
  | Rejected e =>
      try_finally (try_catch (throw e) (fun _ => ret tt)) (setLoading false) ;;
      ret true
  end.

(** [signOut] once the delay has elapsed. *)
Definition signOut_resume_delay : M unit :=
  try_finally (ret tt) (setLoading false).

Definition isAdmin (s : AuthState) : bool :=
  match profile s with
  | Some p => String.eqb (role p) "admin"
  | None => false
  end.

Definition isStudent (s : AuthState) : bool :=
  match profile s with
  | Some p => String.eqb (role p) "student"
  | None => false
  end.

End Part001.

(** ** Concrete scenarios *)

Definition alice : User := {| user_id := "alice"; user_email := "alice@example.org" |}.
Definition bob : User := {| user_id := "bob"; user_email := "bob@example.org" |}.

Definition alice_session : Session :=
  {| session_user := Some alice; access_token := "token-a" |}.
Definition bob_session : Session :=
  {| session_user := Some bob; access_token := "token-b" |}.

Definition alice_profile : Profile :=
  {| id := "alice"; email := "alice@example.org"; full_name := "Alice";
     role := "student" |}.

Definition found (p : Profile) : Settled ProfileResponse :=
  Resolved {| data := Some p; error := None |}.

Definition not_found : Settled ProfileResponse :=
  Resolved {| data := None;
              error := Some {| name := "PostgrestError"; code := "PGRST116";
                               message := "The result contains 0 rows" |} |}.

Definition AbortError : JsError :=
  {| name := "AbortError"; code := ""; message := "The operation was aborted" |}.

Definition network_error : JsError :=
  {| name := "TypeError"; code := ""; message := "Failed to fetch" |}.

Definition session_found (x : Session) : Settled SessionResponse :=
  Resolved {| currentSession := Some x; session_error := None |}.

Definition session_absent : Settled SessionResponse :=
  Resolved {| currentSession := None; session_error := None |}.

Definition signed_out : Settled ErrorResponse :=
  Resolved {| resp_error := None |}.

(** Alice is signed in and her profile has been loaded. *)
Definition alice_signed_in : World :=
  run AuthProvider
    [AuthStateChange "SIGNED_IN" (Some alice_session);
     ProfileFetchSettled 0 (found alice_profile)].

(** Alice's session has been pushed and her profile is being fetched. *)
Definition alice_loading : World :=
  run AuthProvider [AuthStateChange "SIGNED_IN" (Some alice_session)].

(** Bob's session has been pushed while Alice's profile was being
    fetched: controller 0 is aborted, request 0 has not settled yet. *)
Definition alice_then_bob : World :=
  run AuthProvider
    [AuthStateChange "SIGNED_IN" (Some alice_session);
     AuthStateChange "SIGNED_IN" (Some bob_session)].

(** ** Statements of the design document that are compared with the code *)

(** A pushed session that is treated as a no-op refresh: the session
    reference is taken over, [profile] and [loading] are as before and
    no profile request is started (none is issued, the controller is
    not replaced). *)
Definition noop_refresh (w : World) (event : string) (x : Session) : Prop :=
  let w' := step w (AuthStateChange event (Some x)) in
  session (ui w') = Some x /\
  profile (ui w') = profile (ui w) /\
  loading (ui w') = loading (ui w) /\
  fetches (rt w') = fetches (rt w) /\
  profileFetchController (vars w') = profileFetchController (vars w).


(** While the start-up timer is scheduled, the variable holds its
    handle, the component is mounted and the session query has not
    settled. *)
Definition timer_inv (w : World) : Prop :=
  timerScheduled (rt w) = true ->
  initializationTimeout (vars w) = true /\
  mounted (vars w) = true /\
  sessionQuery (rt w) = true.

(** Nothing has resolved the session yet. *)
Definition unresolved (w : World) : Prop :=
  user (ui w) = None /\ profile (ui w) = None /\ session (ui w) = None /\
  mounted (vars w) = true /\ timerScheduled (rt w) = true /\
  fetches (rt w) = [].

(** ** Invariants of the effect *)

(** [user] is the user of [session]: the two cells are always written
    together. *)
Definition user_follows_session (s : AuthState) : Prop :=
  user s = opt_user (session s).

(** The controller in [profileFetchController] is the one created
    last, every controller created before it has been aborted, and
    every outstanding profile request was given the signal of a
    controller that exists. *)
Definition ctl_ok (c : option nat) (cs : list bool)
    (fs : list (nat * string)) : Prop :=
  match c with
  | None => cs = []
  | Some k => length cs = S k /\ forall j, j < k -> cs !! j = Some true
  end /\
  Forall (fun kf => fst kf < length cs) fs.

Definition controllers_inv (w : World) : Prop :=
  ctl_ok (profileFetchController (vars w)) (controllers (rt w))
    (fetches (rt w)).

(** The controller in [profileFetchController] has been aborted. *)
Definition current_aborted (w : World) : bool :=
  match profileFetchController (vars w) with
  | Some k => default false (controllers (rt w) !! k)
  | None => false
  end.

(** An event handled by the code of the effect (session query, timer,
    listener, profile request), as opposed to the three actions. *)
Definition from_effect (e : Event) : bool :=
  match e with
  | SessionQuerySettled _ | TimeoutElapsed | AuthStateChange _ _
  | ProfileFetchSettled _ _ | Unmount => true
  | _ => false
  end.

(** A profile response that carries a row and no error. *)
Definition row_of (r : Settled ProfileResponse) : option Profile :=
  match r with
  | Resolved resp =>
      match error resp with
      | Some _ => None
      | None => data resp
      end
  | Rejected _ => None
  end.

(** The settlement is a rejection named [AbortError]. *)
Definition is_abort {A} (r : Settled A) : bool :=
  match r with
  | Rejected e => String.eqb (name e) "AbortError"
  | Resolved _ => false
  end.

(** An event that leaves the start-up timer alone: any event but the
    answer of the session query, the timer firing and the clean-up. *)
Definition keeps_timer (e : Event) : bool :=
  match e with
  | SessionQuerySettled _ | TimeoutElapsed | Unmount => false
  | _ => true
  end.

(** The start-up timer is scheduled, the variable holds its handle,
    the component is mounted and the session query is outstanding. *)
Definition armed (w : World) : Prop :=
  timerScheduled (rt w) = true /\
  initializationTimeout (vars w) = true /\
  mounted (vars w) = true /\
  sessionQuery (rt w) = true.

(** What [signUp] returns when it returns at once: the backend's
    error, the caught rejection, or no error when the backend gave no
    user; [None] when it goes on to insert the profile. *)
Definition signUp_result (r : Settled AuthResponse) : option (option JsError) :=
  match r with
  | Rejected e => Some (Some e)
  | Resolved resp =>
      match auth_error resp with
      | Some e => Some (Some e)
      | None =>
          match data_user resp with
          | Some _ => None
          | None => Some None
          end
      end
  end.

(** What [signUp] returns after the profile insert has settled: the
    insert's error, the caught rejection, or no error. *)
Definition insert_result (r : Settled ErrorResponse) : option JsError :=
  match r with
  | Rejected e => Some e
  | Resolved resp => resp_error resp
  end.

(** ** The route guard, [ProtectedRoute] *)

(** What the guard renders: the spinner block, a [<Navigate to=... />]
    or its children. *)
Inductive Element : Type :=
| Spinner
| Navigate (to : string)
| Children.

(** The identifiers the module of [ProtectedRoute] binds: the names
    of its three import lines.  [useState] and [useEffect] are not
    among them. *)
Definition ProtectedRoute_imports : list string :=
  ["React"; "ReactNode"; "useAuth"; "Navigate"].

(** Evaluating an identifier in a module with the given bindings: a
    [ReferenceError] when nothing binds it (there is no global of
    that name either). *)
Definition resolve (bindings : list string) (x : string) : Completion unit :=
  if existsb (String.eqb x) bindings then Normal tt
  else Throw {| name := "ReferenceError"; code := "";
                message := x ++ " is not defined" |}.

(** Sequencing of expressions that may throw. *)
Definition and_then {A B} (c : Completion A) (k : A -> Completion B)
    : Completion B :=
  match c with
  | Normal a => k a
  | Throw e => Throw e
  end.

(** [ProtectedRoute({children, requireAdmin, requireStudent})], one
    render.  [provider] is the state of the enclosing [AuthProvider],
    if there is one; [timeoutReached] is the value the state cell of
    line 13 would have.  The function calls [useAuth], then
    [useState], then [useEffect], then decides what to return. *)
Definition ProtectedRoute (provider : option AuthState)
    (timeoutReached requireAdmin requireStudent : bool) : Completion Element :=
  and_then (useAuth provider) (fun auth =>
  and_then (resolve ProtectedRoute_imports "useState") (fun _ =>
  and_then (resolve ProtectedRoute_imports "useEffect") (fun _ =>
  Normal
    (if ctx_loading auth && negb timeoutReached then Spinner
     else if timeoutReached && ctx_loading auth then Navigate "/login"
     else
       match ctx_user auth, ctx_profile auth with
       | Some _, Some p =>
           if requireAdmin && negb (String.eqb (role p) "admin")
           then Navigate "/dashboard"
           else if requireStudent && negb (String.eqb (role p) "student")
           then Navigate "/admin"
           else Children
       | _, _ => Navigate "/login"
       end)))).

(** ** The routes of [App] *)

Inductive Page : Type :=
| Login | Register
| StudentDashboard | SubjectView | SectionView
| AdminDashboard | SubjectManagement | ModuleManagement | QuestionManagement.

(** The [<Route>] entries of [AppContent], in source order. *)
Inductive Route : Type :=
| route_login | route_register
| route_dashboard | route_subject | route_section
| route_admin | route_admin_subjects | route_admin_subject | route_questions
| route_root.

Definition path (r : Route) : string :=
  match r with
  | route_login => "/login"
  | route_register => "/register"
  | route_dashboard => "/dashboard"
  | route_subject => "/subjects/:subjectId"
  | route_section =>
      "/subjects/:subjectId/modules/:moduleId/sections/:sectionId"
  | route_admin => "/admin"
  | route_admin_subjects => "/admin/subjects"
  | route_admin_subject => "/admin/subjects/:subjectId"
  | route_questions =>
      "/admin/subjects/:subjectId/modules/:moduleId/sections/:sectionId/questions"
  | route_root => "/"
  end.

(** The [element] of a route: a page, a page inside a guard with its
    two flags, or a redirection. *)
Inductive RouteElement : Type :=
| Public (p : Page)
| Protected (requireAdmin requireStudent : bool) (p : Page)
| NavigateTo (to : string).

Definition element (r : Route) : RouteElement :=
  match r with
  | route_login => Public Login
  | route_register => Public Register
  | route_dashboard => Protected false true StudentDashboard
  | route_subject => Protected false true SubjectView
  | route_section => Protected false true SectionView
  | route_admin => Protected true false AdminDashboard
  | route_admin_subjects => Protected true false SubjectManagement
  | route_admin_subject => Protected true false ModuleManagement
  | route_questions => Protected true false QuestionManagement
  | route_root => NavigateTo "/login"
  end.

(** What [AppContent] puts on screen. *)
Inductive Screen : Type :=
| LoadingScreen
| GuardSpinner
| Show (p : Page)
| Redirect (to : string).

(** [AppContent()] with the location matched to route [r]. *)
Definition AppContent (provider : option AuthState) (r : Route)
    (timeoutReached : bool) : Completion Screen :=
  match useAuth provider with
  | Throw e => Throw e
  | Normal auth =>
      if ctx_loading auth then Normal LoadingScreen else
      match element r with
      | Public p => Normal (Show p)
      | NavigateTo to => Normal (Redirect to)
      | Protected requireAdmin requireStudent p =>
          match ProtectedRoute provider timeoutReached requireAdmin requireStudent with
          | Throw e => Throw e
          | Normal Spinner => Normal GuardSpinner
          | Normal (Navigate to) => Normal (Redirect to)
          | Normal Children => Normal (Show p)
          end
      end
  end.

(** [App()]: [AppContent] inside the provider, whose state is [s]. *)
Definition App (s : AuthState) (r : Route) (timeoutReached : bool)
    : Completion Screen :=
  AppContent (Some s) r timeoutReached.

(** The route a redirection target matches; the targets used in the
    code are paths without parameters. *)
Definition locate (to : string) : option Route :=
  if String.eqb to "/login" then Some route_login
  else if String.eqb to "/register" then Some route_register
  else if String.eqb to "/dashboard" then Some route_dashboard
  else if String.eqb to "/admin" then Some route_admin
  else if String.eqb to "/admin/subjects" then Some route_admin_subjects
  else if String.eqb to "/" then Some route_root
  else None.

(** What is on screen after following at most [n] redirections from
    route [r]; a guard mounted by a redirection starts with
    [timeoutReached = false]. *)
Fixpoint settle (n : nat) (s : AuthState) (r : Route) (timeoutReached : bool)
    : Completion Screen :=
  match App s r timeoutReached with
  | Normal (Redirect to) =>
      match n with
      | O => Normal (Redirect to)
      | S n' =>
          match locate to with
          | Some r' => settle n' s r' false
          | None => Normal (Redirect to)
          end
      end
  | c => c
  end.

(** Routes whose element is guarded. *)
Definition guarded (r : Route) : bool :=
  match element r with
  | Protected _ _ _ => true
  | _ => false
  end.

(** ** The effect of the second implementation

    The second version of the component has no abort controller and
    no timer; it keeps a fifth state cell, [initializing].  Its effect
    has an empty dependency list, so the listener and the
    [fetchProfile] it calls are the closures of the first render: the
    [initializing] they read is the constant of that render, not the
    cell.  The segments below take that captured value as an
    argument. *)
Module Part001Effect.

(** The five [useState] cells. *)
Record Cells := {
  auth : AuthState;
  initializing : bool
}.

(** The cells, the [mounted] variable of the effect, and the
    outstanding requests: the session query, the profile requests
    (request number, [userId], and whether [getInitialSession] is
    waiting for it), and the calls of [signIn] by the [await] they
    are suspended on. *)
Record World1 := {
  cells : Cells;
  mounted : bool;
  sessionQuery : bool;
  requests : list (nat * (string * bool));
  issued : nat;
  signingOut : nat;
  delaying : nat;
  signingIn : nat
}.

Definition ST (A : Type) : Type := World1 -> World1 * Completion A.

Definition st_ret {A} (a : A) : ST A := fun w => (w, Normal a).

Definition st_bind {A B} (m : ST A) (k : A -> ST B) : ST B :=
  fun w =>
    match m w with
    | (w', Normal a) => k a w'
    | (w', Throw e) => (w', Throw e)
    end.

Notation "x <-- m ;; k" := (st_bind m (fun x => k))
  (at level 100, m at next level, right associativity).
Notation "m ;;; k" := (st_bind m (fun _ => k))
  (at level 100, right associativity).

Definition st_throw {A} (e : JsError) : ST A := fun w => (w, Throw e).

Definition st_try_catch {A} (body : ST A) (handler : JsError -> ST A) : ST A :=
  fun w =>
    match body w with
    | (w', Normal a) => (w', Normal a)
    | (w', Throw e) => handler e w'
    end.

Definition st_try_finally {A} (body : ST A) (final : ST unit) : ST A :=
  fun w =>
    match body w with
    | (w', c) =>
        match final w' with
        | (w'', Normal _) => (w'', c)
        | (w'', Throw e) => (w'', Throw e)
        end
    end.

Definition st_await {A} (r : Settled A) : ST A :=
  match r with
  | Resolved a => st_ret a
  | Rejected e => st_throw e
  end.

Definition st_gets {A} (f : World1 -> A) : ST A := fun w => (w, Normal (f w)).
Definition st_modify (f : World1 -> World1) : ST unit := fun w => (f w, Normal tt).
Definition st_when (b : bool) (m : ST unit) : ST unit := if b then m else st_ret tt.

Definition st_exec {A} (m : ST A) (w : World1) : World1 := fst (m w).
Definition st_completion {A} (m : ST A) (w : World1) : Completion A := snd (m w).

Definition with_cells (f : Cells -> Cells) (w : World1) : World1 :=
  {| cells := f (cells w); mounted := mounted w; sessionQuery := sessionQuery w;
     requests := requests w; issued := issued w; signingOut := signingOut w;
     delaying := delaying w; signingIn := signingIn w |}.

Definition with_auth (f : AuthState -> AuthState) : ST unit :=
  st_modify (with_cells (fun c =>
    {| auth := f (auth c); initializing := initializing c |})).

Definition setUser (u : option User) : ST unit :=
  with_auth (fun s =>
    {| user := u; profile := profile s; session := session s; loading := loading s |}).
Definition setProfile (p : option Profile) : ST unit :=
  with_auth (fun s =>
    {| user := user s; profile := p; session := session s; loading := loading s |}).
Definition setSession (x : option Session) : ST unit :=
  with_auth (fun s =>
    {| user := user s; profile := profile s; session := x; loading := loading s |}).
Definition setLoading (b : bool) : ST unit :=
  with_auth (fun s =>
    {| user := user s; profile := profile s; session := session s; loading := b |}).
Definition setInitializing (b : bool) : ST unit :=
  st_modify (with_cells (fun c => {| auth := auth c; initializing := b |})).

Definition set_mounted (b : bool) (w : World1) : World1 :=
  {| cells := cells w; mounted := b; sessionQuery := sessionQuery w;
     requests := requests w; issued := issued w; signingOut := signingOut w;
     delaying := delaying w; signingIn := signingIn w |}.
Definition set_sessionQuery (b : bool) (w : World1) : World1 :=
  {| cells := cells w; mounted := mounted w; sessionQuery := b;
     requests := requests w; issued := issued w; signingOut := signingOut w;
     delaying := delaying w; signingIn := signingIn w |}.
Definition set_requests (l : list (nat * (string * bool))) (n : nat)
    (w : World1) : World1 :=
  {| cells := cells w; mounted := mounted w; sessionQuery := sessionQuery w;
     requests := l; issued := n; signingOut := signingOut w;
     delaying := delaying w; signingIn := signingIn w |}.
Definition set_signIn_stages (a b c : nat) (w : World1) : World1 :=
  {| cells := cells w; mounted := mounted w; sessionQuery := sessionQuery w;
     requests := requests w; issued := issued w; signingOut := a;
     delaying := b; signingIn := c |}.

(** [fetchProfile(userId)] up to its [await]: the query is issued.
    [initial] tells whether the caller is [getInitialSession]. *)
Definition fetchProfile (userId : string) (initial : bool) : ST unit :=
  st_modify (fun w =>
    set_requests (requests w ++ [(issued w, (userId, initial))]) (S (issued w)) w).

(** [fetchProfile(userId)] from its [await] on; [initializing] is the
    value the closure has captured. *)
Definition fetchProfile_resume (initializing : bool) (userId : string)
    (r : Settled ProfileResponse) : ST unit :=
  st_try_finally
    (st_try_catch
       (resp <-- st_await r ;;
        match error resp with
        | Some e => setProfile None
        | None =>
            match data resp with
            | Some row => setProfile (Some row)
            | None => setProfile None
            end
        end)
       (fun e => setProfile None))
    (st_when (negb initializing) (setLoading false)).

(** The [finally] clause of [getInitialSession]. *)
Definition getInitialSession_finally : ST unit :=
  m <-- st_gets mounted ;;
  st_when m (setLoading false ;;; setInitializing false).

(** [getInitialSession()] up to its first [await]. *)
Definition getInitialSession : ST unit :=
  st_modify (set_sessionQuery true).

(** [getInitialSession()] from its first [await] on.  The result is
    [true] when it has suspended again on [fetchProfile]; its
    [finally] clause then runs after that request has settled. *)
Definition getInitialSession_resume (r : Settled SessionResponse) : ST bool :=
  suspended <--
    st_try_catch
      (resp <-- st_await r ;;
       m <-- st_gets mounted ;;
       if negb m then st_ret false else
       match session_error resp with
       | Some e =>
           setSession None ;;; setUser None ;;; setProfile None ;;;
           st_ret false
       | None =>
           setSession (currentSession resp) ;;;
           setUser (opt_user (currentSession resp)) ;;;
           match opt_user (currentSession resp) with
           | Some u => fetchProfile (user_id u) true ;;; st_ret true
           | None => st_ret false
           end
       end)
      (fun e =>
         m <-- st_gets mounted ;;
         st_when m (setSession None ;;; setUser None ;;; setProfile None) ;;;
         st_ret false) ;;
  if suspended : bool then st_ret true
  else st_try_finally (st_ret false) getInitialSession_finally.

(** The listener given to [onAuthStateChange], up to its [await]. *)
Definition listener (initializing : bool) (event : string)
    (session : option Session) : ST unit :=
  m <-- st_gets mounted ;;
  if negb m then st_ret tt else
  setSession session ;;;
  setUser (opt_user session) ;;;
  match opt_user session with
  | Some u => fetchProfile (user_id u) false
  | None =>
      setProfile None ;;;
      st_when (negb initializing) (setLoading false)
  end.

(** The clean-up of the effect. *)
Definition cleanup : ST unit := st_modify (set_mounted false).

(** [signIn] up to its first [await] (the preliminary sign-out). *)
Definition signIn (email password : string) : ST unit :=
  setLoading true ;;;
  st_modify (fun w => set_signIn_stages (S (signingOut w)) (delaying w) (signingIn w) w).

(** The [catch] clause of [signIn]. *)
Definition signIn_catch (e : JsError) : ST (option (option JsError)) :=
  setLoading false ;;; st_ret (Some (Some e)).

(** [signIn] after the preliminary sign-out has settled: its result
    is ignored and the 100 ms delay starts.  [None] means that the
    function has suspended again, [Some error] that it has returned
    [{error}]. *)
Definition signIn_resume_signOut (r : Settled ErrorResponse)
    : ST (option (option JsError)) :=
  st_try_catch
    (resp <-- st_await r ;;
     st_modify (fun w => set_signIn_stages (signingOut w) (S (delaying w)) (signingIn w) w) ;;;
     st_ret None)
    signIn_catch.

(** [signIn] after the delay: [signInWithPassword] is called. *)
Definition signIn_resume_delay : ST (option (option JsError)) :=
  st_modify (fun w => set_signIn_stages (signingOut w) (delaying w) (S (signingIn w)) w) ;;;
  st_ret None.

(** [signIn] after [signInWithPassword] has settled. *)
Definition signIn_resume (r : Settled AuthResponse)
    : ST (option (option JsError)) :=
  st_try_catch
    (resp <-- st_await r ;;
     match auth_error resp with
     | Some e => setLoading false ;;; st_ret (Some (Some e))
     | None =>
         match data_user resp, data_session resp with
         | Some _, Some _ => st_ret (Some None)
         | _, _ =>
             setLoading false ;;;
             st_ret (Some (Some {| name := "Error"; code := "";
                                   message := "No user or session returned" |}))
         end
     end)
    signIn_catch.

Inductive Event1 : Type :=
| QuerySettled (r : Settled SessionResponse)
| Pushed (event : string) (session : option Session)
| ProfileSettled (k : nat) (r : Settled ProfileResponse)
| Unmounted
| CallSignIn (email password : string)
| SignOutFirstSettled (r : Settled ErrorResponse)
| DelayElapsed
| SignInSettled (r : Settled AuthResponse).

Fixpoint pending (k : nat) (l : list (nat * (string * bool)))
    : option (string * bool) :=
  match l with
  | [] => None
  | (k', x) :: l' => if Nat.eqb k k' then Some x else pending k l'
  end.

Fixpoint remove (k : nat) (l : list (nat * (string * bool)))
    : list (nat * (string * bool)) :=
  match l with
  | [] => []
  | (k', x) :: l' => if Nat.eqb k k' then l' else (k', x) :: remove k l'
  end.

(** The segment an event triggers in the effect created by the render
    in which [initializing] had the value given. *)
Definition handle1 (initializing : bool) (e : Event1) : ST unit :=
  match e with
  | QuerySettled r =>
      q <-- st_gets sessionQuery ;;
      if q : bool then
        st_modify (set_sessionQuery false) ;;;
        getInitialSession_resume r ;;; st_ret tt
      else st_ret tt
  | Pushed event session => listener initializing event session
  | ProfileSettled k r =>
      p <-- st_gets (fun w => pending k (requests w)) ;;
      match p with
      | Some (userId, initial) =>
          st_modify (fun w => set_requests (remove k (requests w)) (issued w) w) ;;;
          fetchProfile_resume initializing userId r ;;;
          st_when initial getInitialSession_finally
      | None => st_ret tt
      end
  | Unmounted => cleanup
  | CallSignIn email password => signIn email password
  | SignOutFirstSettled r =>
      n <-- st_gets signingOut ;;
      match n with
      | S n' =>
          st_modify (fun w => set_signIn_stages n' (delaying w) (signingIn w) w) ;;;
          signIn_resume_signOut r ;;; st_ret tt
      | O => st_ret tt
      end
  | DelayElapsed =>
      n <-- st_gets delaying ;;
      match n with
      | S n' =>
          st_modify (fun w => set_signIn_stages (signingOut w) n' (signingIn w) w) ;;;
          signIn_resume_delay ;;; st_ret tt
      | O => st_ret tt
      end
  | SignInSettled r =>
      n <-- st_gets signingIn ;;
      match n with
      | S n' =>
          st_modify (fun w => set_signIn_stages (signingOut w) (delaying w) n' w) ;;;
          signIn_resume r ;;; st_ret tt
      | O => st_ret tt
      end
  end.

(** The effect runs once, after the first render, in which
    [useState(true)] gave [initializing = true]. *)
Definition captured_initializing : bool := true.

Definition step1 (w : World1) (e : Event1) : World1 :=
  st_exec (handle1 captured_initializing e) w.

Definition run1 (w : World1) (es : list Event1) : World1 := fold_left step1 es w.

(** The component once mounted: [getInitialSession()] has run up to
    its [await] and the listener is registered. *)
Definition AuthProvider1 : World1 :=
  st_exec getInitialSession
    {| cells := {| auth := {| user := None; profile := None; session := None;
                              loading := true |};
                   initializing := true |};
       mounted := true; sessionQuery := false; requests := []; issued := 0;
       signingOut := 0; delaying := 0; signingIn := 0 |}.

(** Events handled by the listener and by the continuation of a
    profile request. *)
Definition listener_event (e : Event1) : bool :=
  match e with
  | Pushed _ _ | ProfileSettled _ _ => true
  | _ => false
  end.

(** [getInitialSession] has finished: the session query has settled
    and no profile request it waits for is outstanding. *)
Definition startup_over (w : World1) : Prop :=
  sessionQuery w = false /\
  Forall (fun x => snd (snd x) = false) (requests w).

End Part001Effect.

(** * Verification *)

(** ** Symbolic execution of segments *)

Ltac segment :=
  cbv [step exec completion handle
       initializeAuth initializeAuth_resume clear_initializationTimeout
       initializationTimeout_callback handleAuthStateChange cleanup
       fetchUserProfile fetchUserProfile_resume signal_aborted resetAuthState
       signIn signIn_resume signUp signUp_resume signUp_resume_insert
       signOut signOut_resume
       Part001.signOut Part001.signOut_resume Part001.signOut_resume_delay
       newAbortController abort aborted clearTimeout request_profile
       setUser setProfile setSession setLoading
       set_mounted set_profileFetchController set_initializationTimeout
       set_controllers set_timerScheduled set_sessionQuery set_fetches
       set_signIns set_signUps set_inserts set_signOuts
       with_ui with_vars with_rt
       bind ret throw try_catch try_finally await gets modify when
       ui vars rt user profile session loading
       mounted profileFetchController initializationTimeout
       controllers timerScheduled sessionQuery fetches
       signIns signUps inserts signOuts
       session_user currentSession session_error data error
       data_user data_session auth_error resp_error
       fst snd negb opt_user].

Ltac open_world w :=
  destruct w as [[? ? ? ?] [? ? ?] [? ? ? ? ? ? ? ?]].

Ltac cases := repeat (case_match; simplify_eq); try done.

(** No segment completes with a thrown error: every [await] sits in a
    [try] whose [catch] clause cannot throw itself. *)
Lemma handle_never_throws (e : Event) (w : World) :
  completion (handle e) w = Normal tt.
Proof.
  destruct e; open_world w; segment; cases.
Qed.

(** A settlement of a profile request never touches [user] or
    [session]. *)
Lemma profile_settlement_keeps_user_session k r w :
  user (ui (step w (ProfileFetchSettled k r))) = user (ui w) /\
  session (ui (step w (ProfileFetchSettled k r))) = session (ui w).
Proof.
  open_world w; segment; cases.
Qed.

(** ** The hook and the role flags *)

(** C9: [useAuth] throws when no provider is in scope, and inside a
    provider it returns the whole value the provider built from its
    state: the four state cells, the three actions and the two role
    flags. *)
Theorem useAuth_throws_outside_provider :
  (exists e, useAuth None = Throw e /\
             message e = "useAuth must be used within an AuthProvider") /\
  (forall s : AuthState,
     useAuth (Some s) = Normal (value s) /\
     ctx_user (value s) = user s /\
     ctx_profile (value s) = profile s /\
     ctx_session (value s) = session s /\
     ctx_loading (value s) = loading s /\
     ctx_isAdmin (value s) = isAdmin s /\
     ctx_isStudent (value s) = isStudent s).
Proof.
  split.
  - eexists. split; reflexivity.
  - intros s. repeat split.
Qed.

Lemma role_flag_true (s : AuthState) (r : string) :
  match profile s with
  | Some p => String.eqb (role p) r
  | None => false
  end = true <->
  exists p, profile s = Some p /\ role p = r.
Proof.
  destruct (profile s) as [p|]; split.
  - intros H. exists p. split; [done | by apply String.eqb_eq].
  - intros (p' & [= <-] & <-). apply String.eqb_refl.
  - done.
  - by intros (p' & ? & _).
Qed.

(** C10: [isAdmin] holds exactly when there is a profile whose role is
    ['admin'], [isStudent] exactly when there is a profile whose role
    is ['student']; the two never hold together and neither holds
    without a profile.  The same is true of the second implementation. *)
Theorem isAdmin_isStudent_characterised (s : AuthState) :
  (isAdmin s = true <-> exists p, profile s = Some p /\ role p = "admin") /\
  (isStudent s = true <-> exists p, profile s = Some p /\ role p = "student") /\
  ~ (isAdmin s = true /\ isStudent s = true) /\
  (profile s = None -> isAdmin s = false /\ isStudent s = false) /\
  Part001.isAdmin s = isAdmin s /\
  Part001.isStudent s = isStudent s.
Proof.
  split_and!.
  - apply role_flag_true.
  - apply role_flag_true.
  - intros [Ha Hs].
    apply role_flag_true in Ha as (p & Hp & Hr).
    apply role_flag_true in Hs as (p' & Hp' & Hr').
    congruence.
  - unfold isAdmin, isStudent. by intros ->.
  - reflexivity.
  - reflexivity.
Qed.

(** ** Sign-out *)

(** C5: [signOut] sets [user], [profile] and [session] to null and
    only then issues the backend call, in one segment; whatever the
    backend answers (success, error or rejection) the continuation
    changes none of the three and only lowers [loading].  The second
    implementation behaves alike, through its extra delay. *)
Theorem signOut_clears_before_backend_call (w : World) (r : Settled ErrorResponse) :
  let w1 := step w CallSignOut in
  let w2 := step w1 (SignOutSettled r) in
  ui w1 = {| user := None; profile := None; session := None; loading := true |} /\
  signOuts (rt w1) = S (signOuts (rt w)) /\
  ui w2 = Unauthenticated /\
  completion (handle (SignOutSettled r)) w1 = Normal tt /\
  (exists clear issue : M unit,
     (forall w', signOut w' = (clear ;; issue) w') /\
     (forall w', ui (exec clear w') =
                 {| user := None; profile := None; session := None;
                    loading := true |}) /\
     (forall w', ui (exec issue w') = ui w' /\
                 signOuts (rt (exec issue w')) = S (signOuts (rt w')))) /\
  (forall w', user (ui (exec (signOut_resume r) w')) = user (ui w') /\
              profile (ui (exec (signOut_resume r) w')) = profile (ui w') /\
              session (ui (exec (signOut_resume r) w')) = session (ui w')) /\
  let v1 := exec Part001.signOut w in
  let v2 := exec (Part001.signOut_resume r) v1 in
  let v3 := exec Part001.signOut_resume_delay v2 in
  ui v1 = {| user := None; profile := None; session := None; loading := true |} /\
  signOuts (rt v1) = S (signOuts (rt w)) /\
  user (ui v2) = None /\ profile (ui v2) = None /\ session (ui v2) = None /\
  ui v3 = Unauthenticated.
Proof.
  open_world w. destruct r as [[[e|]]|e]; segment; split_and!; try done.
  all: try (intros w'; open_world w'; done).
  all: exists (setLoading true ;; setUser None ;; setProfile None ;; setSession None),
         (modify (with_rt (fun r => set_signOuts (S (signOuts r)) r)));
       split_and!; intros w'; open_world w'; done.
Qed.

(** ** The initial session query *)

(** C7: when the session query settles without a session (it resolves
    with none, reports an error, or is rejected), the mounted
    component ends in [{user: null, profile: null, session: null,
    loading: false}] and the segment completes normally: nothing is
    thrown, and the value given to consumers carries no error. *)
Theorem initial_query_without_session_collapses (w : World)
    (r : Settled SessionResponse) :
  mounted (vars w) = true ->
  sessionQuery (rt w) = true ->
  no_session r = true ->
  ui (step w (SessionQuerySettled r)) = Unauthenticated /\
  ui (exec (initializeAuth_resume r) w) = Unauthenticated /\
  completion (handle (SessionQuerySettled r)) w = Normal tt /\
  completion (initializeAuth_resume r) w = Normal tt.
Proof.
  destruct w as [[? ? ? ?] [? ? t] [? ? ? ? ? ? ? ?]].
  destruct r as [[xs e]|e]; cbn; intros -> -> Hr.
  - destruct e as [e|]; [by destruct t|].
    destruct xs as [[[u'|] tok]|]; try done; by destruct t.
  - by destruct t.
Qed.

Lemma initial_query_without_session_collapses_witness :
  ui (step AuthProvider (SessionQuerySettled session_absent)) = Unauthenticated /\
  ui (step AuthProvider (SessionQuerySettled (Rejected network_error))) = Unauthenticated.
Proof.
  split.
  - apply (initial_query_without_session_collapses AuthProvider session_absent);
      reflexivity.
  - apply (initial_query_without_session_collapses AuthProvider
             (Rejected network_error)); reflexivity.
Defined.

(** ** The profile fetch *)

(** C8: when the request made with the current, unaborted controller
    settles with the not-found error ([PGRST116]) in a mounted
    component, the user stays, the profile is null and [loading] is
    false; the segment completes normally. *)
Theorem profile_not_found_is_normal (w : World) (k : nat) (userId : string)
    (u : User) (e : JsError) :
  mounted (vars w) = true ->
  user (ui w) = Some u ->
  profileFetchController (vars w) = Some k ->
  controllers (rt w) !! k = Some false ->
  pending_fetch k (fetches (rt w)) = Some userId ->
  code e = "PGRST116" ->
  let r := Resolved {| data := None; error := Some e |} in
  ui (step w (ProfileFetchSettled k r)) =
    {| user := Some u; profile := None; session := session (ui w);
       loading := false |} /\
  completion (handle (ProfileFetchSettled k r)) w = Normal tt.
Proof.
  open_world w. cbn. intros -> -> -> Hk Hp _.
  segment. rewrite Hp. cbn. rewrite Hk. done.
Qed.

Lemma profile_not_found_is_normal_witness :
  ui (step alice_loading (ProfileFetchSettled 0 not_found)) =
    {| user := Some alice; profile := None; session := Some alice_session;
       loading := false |}.
Proof.
  apply (profile_not_found_is_normal alice_loading 0 "alice" alice
           {| name := "PostgrestError"; code := "PGRST116";
              message := "The result contains 0 rows" |});
    reflexivity.
Defined.

(** ** Traces *)

Lemma run_snoc (w : World) (es : list Event) (e : Event) :
  run w (es ++ [e]) = step (run w es) e.
Proof. unfold run. by rewrite fold_left_app. Qed.

Lemma timer_inv_step (w : World) (e : Event) :
  timer_inv w -> timer_inv (step w e).
Proof.
  unfold timer_inv. open_world w. destruct e; segment; intros H; cases;
    intros Ht; try done; destruct (H Ht) as (? & ? & ?); by simplify_eq.
Qed.

Lemma timer_inv_reachable (es : list Event) : timer_inv (run AuthProvider es).
Proof.
  induction es as [|e es IH] using rev_ind.
  - by intros _.
  - rewrite run_snoc. by apply timer_inv_step.
Qed.

Lemma unresolved_step (w : World) (e : Event) :
  leaves_session_unresolved e = true -> unresolved w -> unresolved (step w e).
Proof.
  unfold unresolved. open_world w. destruct e; try done; intros _; segment;
    intros (-> & -> & -> & -> & -> & ->); cbn; cases.
Qed.

Lemma unresolved_run (es : list Event) :
  forallb leaves_session_unresolved es = true -> unresolved (run AuthProvider es).
Proof.
  induction es as [|e es IH] using rev_ind.
  - intros _. by repeat split.
  - rewrite forallb_app, andb_true_iff. cbn. rewrite andb_true_r.
    intros [Hes He]. rewrite run_snoc. apply unresolved_step; auto.
Qed.

(** ** The start-up timer *)

Lemma armed_step (w : World) (e : Event) :
  keeps_timer e = true -> armed w -> armed (step w e).
Proof.
  unfold armed. open_world w. cbn.
  destruct e; try done; intros _ (-> & -> & -> & ->); segment; cases.
Qed.

Lemma armed_run (es : list Event) :
  forallb keeps_timer es = true -> armed (run AuthProvider es).
Proof.
  induction es as [|e es IH] using rev_ind.
  - intros _. by repeat split.
  - rewrite forallb_app, andb_true_iff. cbn. rewrite andb_true_r.
    intros [Hes He]. rewrite run_snoc. apply armed_step; auto.
Qed.

Lemma timer_stays_off (w : World) (e : Event) :
  timerScheduled (rt w) = false -> timerScheduled (rt (step w e)) = false.
Proof.
  open_world w. cbn. intros ->. destruct e; segment; cases.
Qed.

Lemma timer_stays_off_run (es : list Event) (w : World) :
  timerScheduled (rt w) = false -> timerScheduled (rt (run w es)) = false.
Proof.
  revert w. induction es as [|e es IH]; intros w Hw; [done|].
  cbn. apply IH. by apply timer_stays_off.
Qed.

(** An event that ends the start-up timer: the answer of the session
    query, the timer firing, or the clean-up. *)
Lemma timer_off_after (w : World) (e : Event) :
  timer_inv w ->
  keeps_timer e = false ->
  timerScheduled (rt (step w e)) = false.
Proof.
  unfold timer_inv. open_world w. cbn. intros H.
  destruct e; try done; intros _; segment; cases.
  all: match goal with
       | |- ?t = false =>
           destruct t; [by destruct (H eq_refl) as (? & ? & ?)|done]
       end.
Qed.

Lemma timer_off_in_trace (es es' : list Event) (e : Event) :
  keeps_timer e = false ->
  timerScheduled (rt (run AuthProvider (es ++ e :: es'))) = false.
Proof.
  intros He. unfold run. rewrite fold_left_app. cbn.
  apply timer_stays_off_run. apply timer_off_after; [|done].
  apply timer_inv_reachable.
Qed.

(** C4, as amended.  (1) The start-up timer stays scheduled, with the
    session query outstanding and the component mounted, through
    every sequence of events that contains neither the answer of the
    session query, nor the time-out, nor the unmounting: pushed
    session changes, profile results and actions leave it alone; when
    it then fires, [loading] is false.  (2) Conversely, whenever the
    timer is still scheduled the session query has not settled, and
    the firing lowers [loading] and leaves [user], [profile] and
    [session] as they are.  (3) If nothing has resolved the session
    before (no query result, no pushed change), the state after the
    firing is [{user: null, profile: null, session: null, loading:
    false}].  (4) Once the session query has settled, in any way, the
    timer is not scheduled in any later state and a time-out changes
    nothing.  (5) So with a session found [loading] is still true
    after the time-out, as long as the profile request has not
    settled. *)
Theorem startup_timer_lowers_loading :
  (forall es : list Event,
     forallb keeps_timer es = true ->
     let w := run AuthProvider es in
     timerScheduled (rt w) = true /\
     sessionQuery (rt w) = true /\
     mounted (vars w) = true /\
     loading (ui (run AuthProvider (es ++ [TimeoutElapsed]))) = false) /\
  (forall es : list Event,
     let w := run AuthProvider es in
     timerScheduled (rt w) = true ->
     sessionQuery (rt w) = true /\
     loading (ui (run AuthProvider (es ++ [TimeoutElapsed]))) = false /\
     user (ui (step w TimeoutElapsed)) = user (ui w) /\
     profile (ui (step w TimeoutElapsed)) = profile (ui w) /\
     session (ui (step w TimeoutElapsed)) = session (ui w)) /\
  (forall es : list Event,
     forallb leaves_session_unresolved es = true ->
     ui (run AuthProvider (es ++ [TimeoutElapsed])) = Unauthenticated) /\
  (forall (es es' : list Event) (r : Settled SessionResponse),
     let w := run AuthProvider (es ++ SessionQuerySettled r :: es') in
     timerScheduled (rt w) = false /\ step w TimeoutElapsed = w) /\
  (forall (x : Session) (u : User),
     session_user x = Some u ->
     let w := run AuthProvider
                [SessionQuerySettled (session_found x); TimeoutElapsed] in
     loading (ui w) = true /\ fetches (rt w) = [(0, user_id u)]).
Proof.
  assert (forall es : list Event,
     let w := run AuthProvider es in
     timerScheduled (rt w) = true ->
     sessionQuery (rt w) = true /\
     loading (ui (run AuthProvider (es ++ [TimeoutElapsed]))) = false /\
     user (ui (step w TimeoutElapsed)) = user (ui w) /\
     profile (ui (step w TimeoutElapsed)) = profile (ui w) /\
     session (ui (step w TimeoutElapsed)) = session (ui w)) as Hfire.
  { intros es w Ht. rewrite run_snoc. fold w.
    destruct (timer_inv_reachable es Ht) as (_ & Hm & Hq). fold w in Hm, Hq.
    clearbody w. open_world w. cbn in *. subst. by segment. }
  split_and!.
  - intros es Hes w. destruct (armed_run es Hes) as (Ht & _ & Hm & Hq).
    fold w in Ht, Hm, Hq. split_and!; try done.
    by destruct (Hfire es Ht) as (_ & ? & _).
  - exact Hfire.
  - intros es Hes. rewrite run_snoc.
    pose proof (unresolved_run es Hes) as H.
    destruct (run AuthProvider es) as [[? ? ? ?] [? ? ?] [? ? ? ? ? ? ? ?]].
    destruct H as (? & ? & ? & ? & ? & ?). cbn in *. subst. by segment.
  - intros es es' r w.
    assert (timerScheduled (rt w) = false) as Hoff
      by (by apply timer_off_in_trace).
    split; [done|]. clearbody w. open_world w. cbn in Hoff. by subst.
  - intros [xu tok] u. cbn. intros ->. by vm_compute.
Qed.

Lemma startup_timer_lowers_loading_witness :
  loading (ui (run AuthProvider
                 ([AuthStateChange "SIGNED_IN" (Some alice_session)] ++
                  [TimeoutElapsed]))) = false /\
  ui (run AuthProvider ([CallSignIn "alice@example.org" "secret"] ++
                        [TimeoutElapsed])) = Unauthenticated /\
  timerScheduled
    (rt (run AuthProvider
           [AuthStateChange "SIGNED_IN" (Some alice_session);
            ProfileFetchSettled 0 (found alice_profile);
            CallSignOut])) = true /\
  loading (ui (run AuthProvider
                 [SessionQuerySettled (session_found alice_session);
                  TimeoutElapsed])) = true.
Proof.
  destruct startup_timer_lowers_loading as (Hstay & Hfire & Hnone & _ & Hfound).
  split_and!.
  - apply (Hfire [AuthStateChange "SIGNED_IN" (Some alice_session)]).
    reflexivity.
  - apply (Hnone [CallSignIn "alice@example.org" "secret"]).
    reflexivity.
  - apply (Hstay [AuthStateChange "SIGNED_IN" (Some alice_session);
                  ProfileFetchSettled 0 (found alice_profile);
                  CallSignOut]).
    reflexivity.
  - apply (Hfound alice_session alice). reflexivity.
Defined.

(** C4, as stated, fails: the session query answers with Alice's
    session, which clears the timer; her profile request never
    settles, and when the time-out has elapsed [loading] is still
    true. *)
Lemma startup_timeout_does_not_bound_loading :
  let w := run AuthProvider
             [SessionQuerySettled (session_found alice_session); TimeoutElapsed] in
  loading (ui w) = true /\
  timerScheduled (rt w) = false /\
  fetches (rt w) = [(0, "alice")].
Proof. by vm_compute. Qed.

(** ** Pushed session changes *)

(** C3, as amended: a pushed session that is the one already held and
    carries a user leaves [profile] and [loading] as they are at
    delivery and stores the session and its user; the controller in
    use is aborted, a new one is created and a new profile request is
    issued for that user. *)
Theorem same_session_restarts_profile_fetch (w : World) (event : string)
    (x : Session) (u : User) :
  mounted (vars w) = true ->
  session (ui w) = Some x ->
  session_user x = Some u ->
  let w' := step w (AuthStateChange event (Some x)) in
  let k' := length (controllers (rt w)) in
  ui w' = {| user := Some u; profile := profile (ui w); session := Some x;
             loading := loading (ui w) |} /\
  fetches (rt w') = (fetches (rt w) ++ [(k', user_id u)])%list /\
  profileFetchController (vars w') = Some k' /\
  controllers (rt w') !! k' = Some false /\
  (forall k, profileFetchController (vars w) = Some k -> k < k' ->
             controllers (rt w') !! k = Some true).
Proof.
  open_world w. destruct x as [xu tok]. cbn. intros -> -> ->. segment.
  cases; rewrite ?length_insert; split_and!; try done.
  all: try (rewrite lookup_app_r by (rewrite ?length_insert; lia);
            by rewrite ?length_insert, Nat.sub_diag).
  intros k [= ->] Hk.
  rewrite lookup_app_l by (rewrite ?length_insert; lia).
  by rewrite list_lookup_insert_eq by (rewrite ?length_insert; lia).
Qed.

Lemma same_session_restarts_profile_fetch_witness :
  fetches (rt (step alice_signed_in
                 (AuthStateChange "TOKEN_REFRESHED" (Some alice_session)))) =
  (fetches (rt alice_signed_in) ++
     [(length (controllers (rt alice_signed_in)), "alice")])%list.
Proof.
  apply (same_session_restarts_profile_fetch alice_signed_in "TOKEN_REFRESHED"
           alice_session alice); reflexivity.
Defined.

(** C3, as stated, fails: Alice is signed in with her profile loaded;
    her own session is pushed again, and a second profile request is
    issued with a new controller. *)
Lemma same_session_is_not_a_noop_refresh :
  session (ui alice_signed_in) = Some alice_session /\
  ~ noop_refresh alice_signed_in "TOKEN_REFRESHED" alice_session.
Proof.
  split; [reflexivity|].
  intros (_ & _ & _ & Hf & _). vm_compute in Hf. discriminate.
Qed.

(** ** The [loading] flag *)




(** ** Results of superseded profile requests *)

(** C1, evaluated on the code: a profile can be shown without its
    user, or with another user.  (1) Alice's profile is being fetched
    when she signs out; [signOut] clears the state and cancels
    nothing, the request settles, and her profile is stored while
    [user] is null.  (2) Alice is signed in with her profile loaded
    and Bob's session is pushed: the user is Bob and the profile stays
    Alice's until Bob's request settles.  (3) Bob's session is pushed
    while Alice's request is outstanding; the guard after the [await]
    reads the controller made for Bob, so if Alice's row still arrives
    it is stored under Bob. *)
Theorem profile_shown_for_another_user :
  ui (run AuthProvider
        [AuthStateChange "SIGNED_IN" (Some alice_session);
         CallSignOut;
         ProfileFetchSettled 0 (found alice_profile)]) =
    {| user := None; profile := Some alice_profile; session := None;
       loading := false |} /\
  ui (step alice_signed_in (AuthStateChange "SIGNED_IN" (Some bob_session))) =
    {| user := Some bob; profile := Some alice_profile;
       session := Some bob_session; loading := false |} /\
  ui (step alice_then_bob (ProfileFetchSettled 0 (found alice_profile))) =
    {| user := Some bob; profile := Some alice_profile;
       session := Some bob_session; loading := false |} /\
  ~ (forall w, reachable w -> profile_matches_user (ui w) = true).
Proof.
  split_and!; try reflexivity.
  intros H.
  specialize (H _ (ex_intro _ [AuthStateChange "SIGNED_IN" (Some alice_session);
                               CallSignOut;
                               ProfileFetchSettled 0 (found alice_profile)]
                     eq_refl)).
  vm_compute in H. discriminate.
Qed.

(** C2, evaluated on the code: Bob's session has been pushed while
    Alice's profile request was outstanding, so controller 0 is
    aborted, Bob's request is outstanding and [loading] is true.
    Alice's request then settles with the abort error: the [catch]
    clause returns, the [finally] clause still runs, and [loading]
    drops to false although Bob's request has not settled.  A
    settlement never touches [user] or [session]. *)
Theorem aborted_fetch_settlement_lowers_loading :
  let w := alice_then_bob in
  let w' := step w (ProfileFetchSettled 0 (Rejected AbortError)) in
  controllers (rt w) !! 0 = Some true /\
  pending_fetch 0 (fetches (rt w)) = Some "alice" /\
  user (ui w) = Some bob /\
  current_fetch_outstanding w = true /\
  loading (ui w) = true /\
  loading (ui w') = false /\
  current_fetch_outstanding w' = true /\
  ui w' <> ui w /\
  (forall v k r,
     user (ui (step v (ProfileFetchSettled k r))) = user (ui v) /\
     session (ui (step v (ProfileFetchSettled k r))) = session (ui v)).
Proof.
  split_and!; try reflexivity.
  - discriminate.
  - intros v k r. apply profile_settlement_keeps_user_session.
Qed.

(** * Further properties of the provider *)

(** ** Completion of segments *)

(** X1: for every response of the backend and every rejection that
    carries an error object, of any name, no segment of the provider
    completes with a thrown error: each [await] sits in a [try], and
    what the [try] bodies can throw themselves (reading [data.role]
    of a response with neither data nor error, reading the signal of
    a null controller) is caught.  So every event handler completes
    normally and the continuations of [signIn] and [signUp] always
    return their result object.  (A rejection with [null] or
    [undefined] is outside this statement: the [catch] clause of
    [fetchUserProfile] reads [error.name].) *)
Theorem segments_complete_normally :
  (forall (e : Event) (w : World), completion (handle e) w = Normal tt) /\
  (forall r w, exists res, completion (signIn_resume r) w = Normal res) /\
  (forall r w, exists res, completion (signUp_resume r) w = Normal res) /\
  (forall r w, exists res, completion (signUp_resume_insert r) w = Normal res) /\
  (forall userId r w, completion (fetchUserProfile_resume userId r) w = Normal tt) /\
  (forall r w, completion (initializeAuth_resume r) w = Normal tt).
Proof.
  split_and!.
  - apply handle_never_throws.
  - intros r w. open_world w. segment. cases; by eexists.
  - intros r w. open_world w. segment. cases; by eexists.
  - intros r w. open_world w. segment. cases; by eexists.
  - intros userId r w. open_world w. segment. cases.
  - intros r w. open_world w. segment. cases.
Qed.

(** ** [user] and [session] *)

Lemma user_follows_session_step (w : World) (e : Event) :
  user_follows_session (ui w) -> user_follows_session (ui (step w e)).
Proof.
  unfold user_follows_session. open_world w. destruct e; segment; intros H; cases.
Qed.

(** X2: in every state the provider can reach, [user] is the user of
    [session]; so [user] is null exactly when [session] is null, and a
    session without a user is never stored. *)
Theorem user_is_the_user_of_session (es : list Event) :
  let s := ui (run AuthProvider es) in
  user s = opt_user (session s) /\
  (user s = None <-> session s = None).
Proof.
  assert (user_follows_session (ui (run AuthProvider es))) as H.
  { induction es as [|e es IH] using rev_ind; [done|].
    rewrite run_snoc. by apply user_follows_session_step. }
  intros s. subst s. split; [exact H|].
  assert (forall es', session (ui (run AuthProvider es')) = None \/
            opt_user (session (ui (run AuthProvider es'))) <> None) as Hs.
  { clear. intros es. induction es as [|e es IH] using rev_ind; [by left|].
    rewrite run_snoc.
    destruct (run AuthProvider es) as [[? ? ? ?] [? ? ?] [? ? ? ? ? ? ? ?]].
    revert IH. destruct e; segment; intros IH; cases; auto. }
  unfold user_follows_session in H. rewrite H. split.
  - intros Hu. by destruct (Hs es).
  - by intros ->.
Qed.

(** ** Abort controllers *)

Lemma remove_fetch_Forall (P : nat * string -> Prop) k l :
  Forall P l -> Forall P (remove_fetch k l).
Proof.
  induction 1 as [|[k' u] l HP Hl IH]; cbn; [done|].
  destruct (Nat.eqb k k'); [done|]. by constructor.
Qed.

Lemma ctl_ok_remove c cs fs k :
  ctl_ok c cs fs -> ctl_ok c cs (remove_fetch k fs).
Proof. intros [Hc Hf]. split; [done|]. by apply remove_fetch_Forall. Qed.

Lemma ctl_ok_abort k cs fs :
  ctl_ok (Some k) cs fs -> ctl_ok (Some k) (<[k:=true]> cs) fs.
Proof.
  intros [[Hl Hj] Hf]. split; [split|].
  - by rewrite length_insert.
  - intros j Hlt. rewrite list_lookup_insert_ne by lia. auto.
  - by rewrite length_insert.
Qed.

Lemma ctl_ok_first cs fs u :
  ctl_ok None cs fs ->
  ctl_ok (Some (length cs)) (cs ++ [false]) (fs ++ [(length cs, u)]).
Proof.
  intros [-> Hf]. split; [split; [done|cbn; lia]|].
  apply Forall_app. split.
  - eapply Forall_impl; [exact Hf|]. cbn. lia.
  - repeat constructor.
Qed.

Lemma ctl_ok_next k cs fs u :
  ctl_ok (Some k) cs fs ->
  ctl_ok (Some (length (<[k:=true]> cs))) (<[k:=true]> cs ++ [false])
    (fs ++ [(length (<[k:=true]> cs), u)]).
Proof.
  intros [[Hl Hj] Hf]. rewrite length_insert. split; [split|].
  - rewrite length_app, length_insert. cbn. lia.
  - intros j Hlt. rewrite lookup_app_l by (rewrite length_insert; lia).
    destruct (decide (j = k)) as [->|Hne].
    + by rewrite list_lookup_insert_eq by lia.
    + rewrite list_lookup_insert_ne by done. apply Hj. lia.
  - rewrite length_app, length_insert. apply Forall_app. split.
    + eapply Forall_impl; [exact Hf|]. cbn. lia.
    + repeat constructor. cbn. lia.
Qed.

Lemma controllers_inv_step (w : World) (e : Event) :
  controllers_inv w -> controllers_inv (step w e).
Proof.
  unfold controllers_inv.
  open_world w. destruct e; segment; intros H; cases;
    rewrite ?list_insert_insert_eq;
    eauto using ctl_ok_remove, ctl_ok_abort, ctl_ok_first, ctl_ok_next.
Qed.

Lemma controllers_inv_reachable (es : list Event) :
  controllers_inv (run AuthProvider es).
Proof.
  induction es as [|e es IH] using rev_ind.
  - by split.
  - rewrite run_snoc. by apply controllers_inv_step.
Qed.

(** X3: in every reachable state the controller held in
    [profileFetchController] is the one created last and all older
    controllers are aborted; hence an outstanding profile request
    whose signal is not aborted is the request made last. *)
Theorem one_unaborted_controller (es : list Event) :
  let w := run AuthProvider es in
  (profileFetchController (vars w) = None -> controllers (rt w) = []) /\
  (forall k, profileFetchController (vars w) = Some k ->
     length (controllers (rt w)) = S k) /\
  (forall k j, profileFetchController (vars w) = Some k -> j < k ->
     controllers (rt w) !! j = Some true) /\
  (forall k userId,
     (k, userId) ∈ fetches (rt w) ->
     controllers (rt w) !! k = Some false ->
     profileFetchController (vars w) = Some k).
Proof.
  intros w. pose proof (controllers_inv_reachable es) as [Hc Hf]. fold w in Hc, Hf.
  split_and!.
  - intros Hn. by rewrite Hn in Hc.
  - intros k Hk. rewrite Hk in Hc. by destruct Hc.
  - intros k j Hk Hj. rewrite Hk in Hc. destruct Hc as [_ Hc]. by apply Hc.
  - intros k userId Hin Hk.
    rewrite Forall_forall in Hf. specialize (Hf _ Hin). cbn in Hf.
    destruct (profileFetchController (vars w)) as [c|].
    + destruct Hc as [Hl Hj]. destruct (decide (k = c)) as [->|Hne]; [done|].
      rewrite Hj in Hk by lia. done.
    + rewrite Hc in Hf. cbn in Hf. lia.
Qed.

(** ** After unmounting *)

(** X4: once the component is unmounted it stays unmounted, and the
    code of the effect (session query continuation, timer callback,
    listener, profile continuation, clean-up) no longer changes any
    of [user], [profile], [session], [loading], nor creates a
    controller or issues a profile request. *)
Theorem unmounted_effect_is_silent (w : World) (e : Event) :
  mounted (vars w) = false ->
  mounted (vars (step w e)) = false /\
  (from_effect e = true ->
   ui (step w e) = ui w /\
   length (controllers (rt (step w e))) = length (controllers (rt w)) /\
   profileFetchController (vars (step w e)) = profileFetchController (vars w) /\
   length (fetches (rt (step w e))) <= length (fetches (rt w))).
Proof.
  assert (forall k l, length (remove_fetch k l) <= length l) as Hrem.
  { intros k l. induction l as [|[k' u] l IH]; cbn; [done|].
    destruct (Nat.eqb k k'); cbn; lia. }
  open_world w. cbn. intros ->. split.
  - destruct e; segment; cases.
  - destruct e; try done; intros _; segment; cases;
      rewrite ?length_insert; split_and!; try done; apply Hrem.
Qed.

Lemma unmounted_effect_is_silent_witness :
  ui (step (step alice_loading Unmount) (ProfileFetchSettled 0 (found alice_profile))) =
  ui (step alice_loading Unmount).
Proof.
  apply (unmounted_effect_is_silent (step alice_loading Unmount)
           (ProfileFetchSettled 0 (found alice_profile))); reflexivity.
Defined.

(** ** Pushed session changes *)

Lemma push_with_user (w : World) (event : string) (x : Session) (u : User) :
  mounted (vars w) = true ->
  session_user x = Some u ->
  let w' := step w (AuthStateChange event (Some x)) in
  let k' := length (controllers (rt w)) in
  ui w' = {| user := Some u; profile := profile (ui w); session := Some x;
             loading := loading (ui w) |} /\
  fetches (rt w') = (fetches (rt w) ++ [(k', user_id u)])%list /\
  profileFetchController (vars w') = Some k' /\
  controllers (rt w') !! k' = Some false /\
  mounted (vars w') = true.
Proof.
  open_world w. destruct x as [xu tok]. cbn. intros -> ->. segment.
  cases; rewrite ?length_insert; split_and!; try done.
  all: rewrite lookup_app_r by (rewrite ?length_insert; lia);
       by rewrite ?length_insert, Nat.sub_diag.
Qed.

(** X5: a pushed session change that carries no user (a sign-out, or
    a session object without user) puts the mounted component in
    [{user: null, profile: null, session: null, loading: false}],
    aborts the controller in use and issues no request. *)
Theorem pushed_session_without_user_resets (w : World) (event : string)
    (newSession : option Session) :
  mounted (vars w) = true ->
  opt_user newSession = None ->
  let w' := step w (AuthStateChange event newSession) in
  ui w' = Unauthenticated /\
  fetches (rt w') = fetches (rt w) /\
  profileFetchController (vars w') = profileFetchController (vars w) /\
  (forall k, profileFetchController (vars w) = Some k ->
             k < length (controllers (rt w)) ->
             current_aborted w' = true).
Proof.
  open_world w. destruct newSession as [[[u|] tok]|]; cbn; intros -> Hn;
    try done; segment; cases; split_and!; try done.
  all: intros k [= ->] Hk; unfold current_aborted; cbn;
       by rewrite list_lookup_insert_eq.
Qed.

Lemma pushed_session_without_user_resets_witness :
  ui (step alice_signed_in (AuthStateChange "SIGNED_OUT" None)) = Unauthenticated.
Proof.
  apply (pushed_session_without_user_resets alice_signed_in "SIGNED_OUT" None);
    reflexivity.
Defined.

(** ** Settlement of profile requests *)

(** X6: while the controller in [profileFetchController] is aborted
    (after a pushed sign-out), the settlement of an outstanding
    profile request never stores a row: [user] and [session] are
    unchanged, [loading] is false, and [profile] is unchanged, or
    null when the request was rejected with an error other than
    [AbortError]. *)
Theorem settlement_under_aborted_controller (w : World) (k : nat)
    (userId : string) (r : Settled ProfileResponse) :
  mounted (vars w) = true ->
  current_aborted w = true ->
  pending_fetch k (fetches (rt w)) = Some userId ->
  ui (step w (ProfileFetchSettled k r)) =
    {| user := user (ui w);
       profile := match r with
                  | Resolved _ => profile (ui w)
                  | Rejected _ => if is_abort r then profile (ui w) else None
                  end;
       session := session (ui w);
       loading := false |}.
Proof.
  open_world w. unfold current_aborted. cbn. intros -> Ha Hp.
  segment. rewrite Hp. cbn. destruct r as [resp|e]; cbn.
  - cases.
  - destruct (String.eqb (name e) "AbortError"); cases.
Qed.

Lemma settlement_under_aborted_controller_witness :
  ui (step (step alice_loading (AuthStateChange "SIGNED_OUT" None))
        (ProfileFetchSettled 0 (found alice_profile))) = Unauthenticated.
Proof.
  apply (settlement_under_aborted_controller
           (step alice_loading (AuthStateChange "SIGNED_OUT" None)) 0 "alice"
           (found alice_profile)); reflexivity.
Defined.

Lemma settle_current (w : World) (k : nat) (userId : string)
    (r : Settled ProfileResponse) :
  mounted (vars w) = true ->
  profileFetchController (vars w) = Some k ->
  controllers (rt w) !! k = Some false ->
  pending_fetch k (fetches (rt w)) = Some userId ->
  ui (step w (ProfileFetchSettled k r)) =
    {| user := user (ui w);
       profile := match row_of r with
                  | Some row => Some row
                  | None => if is_abort r then profile (ui w) else None
                  end;
       session := session (ui w);
       loading := false |}.
Proof.
  open_world w. cbn. intros -> -> Hk Hp.
  destruct r as [[[row|] [e|]]|e]; segment; rewrite Hp; cbn;
    rewrite ?Hk; cbn; try done.
  destruct (String.eqb (name e) "AbortError"); done.
Qed.

(** X7: the settlement of the request made with the current,
    unaborted controller decides [profile] alone: the row when the
    response has one and no error; unchanged when the request was
    rejected with [AbortError]; null for every other outcome (any
    error code, a response without row, any other rejection).  It
    always lowers [loading] and leaves [user] and [session] alone. *)
Theorem settlement_of_current_request (w : World) (k : nat) (userId : string)
    (r : Settled ProfileResponse) :
  mounted (vars w) = true ->
  profileFetchController (vars w) = Some k ->
  controllers (rt w) !! k = Some false ->
  pending_fetch k (fetches (rt w)) = Some userId ->
  ui (step w (ProfileFetchSettled k r)) =
    {| user := user (ui w);
       profile := match row_of r with
                  | Some row => Some row
                  | None => if is_abort r then profile (ui w) else None
                  end;
       session := session (ui w);
       loading := false |}.
Proof. apply settle_current. Qed.

Lemma settlement_of_current_request_witness :
  ui (step alice_loading (ProfileFetchSettled 0 (Rejected network_error))) =
    {| user := Some alice; profile := None; session := Some alice_session;
       loading := false |}.
Proof.
  apply (settlement_of_current_request alice_loading 0 "alice"
           (Rejected network_error)); reflexivity.
Defined.

Lemma pending_fetch_new (k : nat) (u : string) (fs : list (nat * string)) :
  Forall (fun kf => fst kf < k) fs -> pending_fetch k (fs ++ [(k, u)]) = Some u.
Proof.
  induction 1 as [|[k' u'] fs Hlt _ IH]; cbn.
  - by rewrite Nat.eqb_refl.
  - cbn in Hlt. destruct (Nat.eqb_spec k k'); [lia|done].
Qed.

(** X8: sign-in round trip.  In any reachable mounted state, when a
    session with a user is pushed and the request it starts is
    answered with a row, the state is that user, that row, that
    session and [loading = false], and the role flags are those of
    the row. *)
Theorem pushed_session_then_row (es : list Event) (event : string)
    (x : Session) (u : User) (row : Profile) :
  let w := run AuthProvider es in
  let k := length (controllers (rt w)) in
  mounted (vars w) = true ->
  session_user x = Some u ->
  let s := ui (run w [AuthStateChange event (Some x);
                      ProfileFetchSettled k (found row)]) in
  s = {| user := Some u; profile := Some row; session := Some x;
         loading := false |} /\
  isAdmin s = String.eqb (role row) "admin" /\
  isStudent s = String.eqb (role row) "student".
Proof.
  intros w k Hm Hx s.
  destruct (push_with_user w event x u Hm Hx) as (Hui & Hf & Hc & Hk & Hm').
  assert (s = {| user := Some u; profile := Some row; session := Some x;
                 loading := false |}) as ->.
  { subst s. cbn [run fold_left].
    erewrite settle_current; eauto.
    - by rewrite Hui.
    - rewrite Hf. apply pending_fetch_new.
      by destruct (controllers_inv_reachable es) as [_ ?]. }
  done.
Qed.

Lemma pushed_session_then_row_witness :
  ui (run (run AuthProvider [SessionQuerySettled session_absent])
        [AuthStateChange "SIGNED_IN" (Some alice_session);
         ProfileFetchSettled 0 (found alice_profile)]) =
    {| user := Some alice; profile := Some alice_profile;
       session := Some alice_session; loading := false |}.
Proof.
  apply (pushed_session_then_row [SessionQuerySettled session_absent]
           "SIGNED_IN" alice_session alice alice_profile); reflexivity.
Defined.

(** ** Start-up *)

(** X9: start-up with an existing session.  When the session query
    answers with a session that has a user, the session and its user
    are stored, the timer is cleared, [loading] stays true and a
    profile request is issued; when that request is answered with a
    row the state is complete and [loading] is false. *)
Theorem startup_with_existing_session (x : Session) (u : User) (row : Profile) :
  session_user x = Some u ->
  let w1 := step AuthProvider (SessionQuerySettled (session_found x)) in
  let w2 := step w1 (ProfileFetchSettled 0 (found row)) in
  ui w1 = {| user := Some u; profile := None; session := Some x;
             loading := true |} /\
  timerScheduled (rt w1) = false /\
  fetches (rt w1) = [(0, user_id u)] /\
  step w1 TimeoutElapsed = w1 /\
  ui w2 = {| user := Some u; profile := Some row; session := Some x;
             loading := false |} /\
  fetches (rt w2) = [].
Proof.
  destruct x as [xu tok]. cbn. intros ->. by vm_compute.
Qed.

Lemma startup_with_existing_session_witness :
  ui (step (step AuthProvider (SessionQuerySettled (session_found alice_session)))
        (ProfileFetchSettled 0 (found alice_profile))) =
    {| user := Some alice; profile := Some alice_profile;
       session := Some alice_session; loading := false |}.
Proof.
  apply (startup_with_existing_session alice_session alice alice_profile).
  reflexivity.
Defined.

(** ** The start-up timer *)

(** X10: the start-up timer is one-shot and is never set again.  After
    the session query has settled (in any way), after the timer has
    fired, or after the component was unmounted, the timer is not
    scheduled in any later state, so its callback cannot run and a
    later time-out event changes nothing. *)
Theorem startup_timer_is_one_shot (es es' : list Event) (e : Event) :
  match e with
  | SessionQuerySettled _ | TimeoutElapsed | Unmount => True
  | _ => False
  end ->
  let w := run AuthProvider (es ++ e :: es') in
  timerScheduled (rt w) = false /\ step w TimeoutElapsed = w.
Proof.
  intros He w.
  assert (timerScheduled (rt w) = false) as Hoff.
  { apply timer_off_in_trace. by destruct e. }
  split; [done|].
  clearbody w. open_world w. cbn in Hoff. subst. reflexivity.
Qed.

Lemma startup_timer_is_one_shot_witness :
  timerScheduled
    (rt (run AuthProvider
           ([] ++ SessionQuerySettled (session_found alice_session) ::
                  [CallSignIn "alice@example.org" "secret"]))) = false.
Proof.
  apply (startup_timer_is_one_shot []
           [CallSignIn "alice@example.org" "secret"]
           (SessionQuerySettled (session_found alice_session))).
  exact I.
Defined.

(** ** The actions *)

(** X11: [signIn] never writes [user], [profile] or [session]; it
    raises [loading] and lowers it again exactly when it reports an
    error (backend error, missing user or session, rejection).  On
    success it returns [{error: null}] and leaves [loading] raised for
    the listener to lower. *)
Theorem signIn_reports_and_lowers_loading (w : World) (email password : string)
    (r : Settled AuthResponse) :
  let w1 := step w (CallSignIn email password) in
  let w2 := step w1 (SignInSettled r) in
  ui w1 = {| user := user (ui w); profile := profile (ui w);
             session := session (ui w); loading := true |} /\
  ui w2 = {| user := user (ui w); profile := profile (ui w);
             session := session (ui w); loading := negb (signIn_failed r) |} /\
  (exists res, completion (signIn_resume r) w1 = Normal res /\
               (res = None <-> signIn_failed r = false)) /\
  fetches (rt w2) = fetches (rt w) /\
  signIns (rt w2) = signIns (rt w).
Proof.
  open_world w.
  destruct r as [[[?|] [?|] [?|]]|?]; segment; split_and!; try done;
    eexists; (split; [reflexivity|]); done.
Qed.

(** X12: [signUp] never writes [user], [profile] or [session].  It
    asks for the profile insert exactly when the backend reported no
    error and returned a user; otherwise it returns at once, with the
    backend's error, with the caught rejection, or with
    [{error: null}] when the backend gave neither error nor user.
    After the insert has settled it returns the insert's error, the
    caught rejection, or [{error: null}].  Whenever it returns
    [loading] is false. *)
Theorem signUp_stages (w : World) (email password fullName role : string)
    (r : Settled AuthResponse) (r' : Settled ErrorResponse) :
  let w1 := step w (CallSignUp email password fullName role) in
  let w2 := step w1 (SignUpSettled r) in
  let w3 := step w2 (InsertSettled r') in
  let inserting :=
    match r with
    | Resolved resp =>
        match auth_error resp, data_user resp with
        | None, Some _ => true
        | _, _ => false
        end
    | Rejected _ => false
    end in
  ui w1 = {| user := user (ui w); profile := profile (ui w);
             session := session (ui w); loading := true |} /\
  ui w2 = {| user := user (ui w); profile := profile (ui w);
             session := session (ui w); loading := inserting |} /\
  inserts (rt w2) = (if inserting then S (inserts (rt w)) else inserts (rt w)) /\
  completion (signUp_resume r) w1 = Normal (signUp_result r) /\
  (signUp_result r = None <-> inserting = true) /\
  (signUp_result r = Some None <->
   exists resp, r = Resolved resp /\ auth_error resp = None /\
                data_user resp = None) /\
  (inserting = true ->
   ui w3 = {| user := user (ui w); profile := profile (ui w);
              session := session (ui w); loading := false |} /\
   inserts (rt w3) = inserts (rt w) /\
   completion (signUp_resume_insert r') w2 = Normal (insert_result r') /\
   (insert_result r' = None <-> failed resp_error r' = false)).
Proof.
  open_world w.
  destruct r as [[[?|] ? [?|]]|?]; segment; split_and!; try done;
    try (split; [done|by intros (? & [= <-] & ? & ?)]);
    try (split; [done|by intros (? & ? & ? & ?)]);
    try (split; [by intros _; eexists|done]).
  intros _. destruct r' as [[[?|]]|?]; split_and!; done.
Qed.

(** ** Where a profile comes from *)

(** X13: the only code that stores a non-null profile is the
    continuation of a profile request: if an event leaves a profile
    in the state, either that profile was there before or the event
    is the settlement of an outstanding profile request whose
    response carries that row and no error. *)
Theorem profile_comes_from_a_response (w : World) (e : Event) (p : Profile) :
  profile (ui (step w e)) = Some p ->
  profile (ui w) = Some p \/
  exists k r userId,
    e = ProfileFetchSettled k r /\ row_of r = Some p /\
    pending_fetch k (fetches (rt w)) = Some userId.
Proof.
  open_world w. destruct e as [r| | |k r| |r| |r|r| |r|];
    try (segment; intros H; cases; by left).
  destruct (pending_fetch k fetches0) as [userId|] eqn:Hp.
  - destruct r as [[[row|] [e|]]|e]; segment; rewrite Hp; intros H; cases;
      try (by left); right; exists k; eexists; exists userId;
      split_and!; [reflexivity|done|done].
  - segment. rewrite Hp. intros H. by left.
Qed.

Lemma profile_comes_from_a_response_witness :
  profile (ui alice_loading) = Some alice_profile \/
  exists k r userId,
    ProfileFetchSettled 0 (found alice_profile) = ProfileFetchSettled k r /\
    row_of r = Some alice_profile /\
    pending_fetch k (fetches (rt alice_loading)) = Some userId.
Proof.
  apply (profile_comes_from_a_response alice_loading
           (ProfileFetchSettled 0 (found alice_profile)) alice_profile).
  reflexivity.
Defined.

(** * The route guard and the routes *)

(** X14: [ProtectedRoute] throws on every render and so never returns
    its children, a spinner or a redirection: outside a provider
    [useAuth] throws, and inside one the call of [useState] throws a
    [ReferenceError], because the module imports neither [useState]
    nor [useEffect]. *)
Theorem ProtectedRoute_always_throws (provider : option AuthState)
    (timeoutReached requireAdmin requireStudent : bool) :
  (forall v, ProtectedRoute provider timeoutReached requireAdmin requireStudent
             <> Normal v) /\
  (provider = None ->
   exists e, ProtectedRoute provider timeoutReached requireAdmin requireStudent
             = Throw e /\
             message e = "useAuth must be used within an AuthProvider") /\
  (forall s, provider = Some s ->
   ProtectedRoute provider timeoutReached requireAdmin requireStudent
     = Throw {| name := "ReferenceError"; code := "";
                message := "useState is not defined" |}).
Proof.
  destruct provider as [s|]; split_and!; try done.
  - by eexists.
Qed.

Lemma ProtectedRoute_always_throws_witness :
  ProtectedRoute (Some (ui alice_signed_in)) false false true =
    Throw {| name := "ReferenceError"; code := "";
             message := "useState is not defined" |}.
Proof.
  apply (proj2 (proj2 (ProtectedRoute_always_throws
                         (Some (ui alice_signed_in)) false false true))
           (ui alice_signed_in)).
  reflexivity.
Defined.

(** X16: what [App] puts on screen.  While the context is loading it
    is the loading screen, on every route, and no guard is rendered.
    Once [loading] is false the two public routes show their page and
    the root redirects to [/login], which shows the login page; every
    guarded route throws the [ReferenceError] of [ProtectedRoute], so
    no guarded page is ever on screen. *)
Theorem App_guarded_routes_throw (s : AuthState) (r : Route)
    (timeoutReached : bool) :
  (loading s = true -> App s r timeoutReached = Normal LoadingScreen) /\
  (loading s = false ->
   (forall p, element r = Public p -> App s r timeoutReached = Normal (Show p)) /\
   (r = route_root ->
    App s r timeoutReached = Normal (Redirect "/login") /\
    settle 1 s r timeoutReached = Normal (Show Login)) /\
   (guarded r = true ->
    App s r timeoutReached =
      Throw {| name := "ReferenceError"; code := "";
               message := "useState is not defined" |})) /\
  (forall p, guarded r = true -> App s r timeoutReached <> Normal (Show p)).
Proof.
  destruct s as [u pr x l]. cbn. split_and!.
  - by intros ->.
  - intros ->. split_and!.
    + intros p Hp. unfold App, AppContent. cbn. by rewrite Hp.
    + by intros ->.
    + by destruct r.
  - intros p Hg. by destruct l, r.
Qed.

Lemma App_guarded_routes_throw_witness :
  App (ui alice_loading) route_dashboard false = Normal LoadingScreen /\
  App (ui alice_signed_in) route_dashboard false =
    Throw {| name := "ReferenceError"; code := "";
             message := "useState is not defined" |} /\
  settle 1 (ui alice_signed_in) route_root false = Normal (Show Login).
Proof.
  pose proof (App_guarded_routes_throw (ui alice_loading) route_dashboard false)
    as (Hl & _ & _).
  pose proof (App_guarded_routes_throw (ui alice_signed_in) route_dashboard false)
    as (_ & Hd & _).
  pose proof (App_guarded_routes_throw (ui alice_signed_in) route_root false)
    as (_ & Hr & _).
  split_and!.
  - by apply Hl.
  - by apply Hd.
  - by apply Hr.
Defined.

(** [locate] finds only routes with the path asked for. *)
Lemma locate_path (to : string) (r : Route) :
  locate to = Some r -> path r = to.
Proof.
  unfold locate. repeat case_match; intros [= <-];
    symmetry; by apply String.eqb_eq.
Qed.

(** * The effect of the second implementation *)

Ltac segment1 :=
  cbv [Part001Effect.step1 Part001Effect.st_exec Part001Effect.st_completion
       Part001Effect.handle1 Part001Effect.captured_initializing
       Part001Effect.getInitialSession Part001Effect.getInitialSession_resume
       Part001Effect.getInitialSession_finally
       Part001Effect.listener Part001Effect.cleanup
       Part001Effect.fetchProfile Part001Effect.fetchProfile_resume
       Part001Effect.signIn Part001Effect.signIn_catch
       Part001Effect.signIn_resume_signOut Part001Effect.signIn_resume_delay
       Part001Effect.signIn_resume
       Part001Effect.setUser Part001Effect.setProfile Part001Effect.setSession
       Part001Effect.setLoading Part001Effect.setInitializing
       Part001Effect.with_auth Part001Effect.with_cells
       Part001Effect.set_mounted Part001Effect.set_sessionQuery
       Part001Effect.set_requests Part001Effect.set_signIn_stages
       Part001Effect.st_bind Part001Effect.st_ret Part001Effect.st_throw
       Part001Effect.st_try_catch Part001Effect.st_try_finally
       Part001Effect.st_await Part001Effect.st_gets Part001Effect.st_modify
       Part001Effect.st_when
       Part001Effect.cells Part001Effect.auth Part001Effect.initializing
       Part001Effect.mounted Part001Effect.sessionQuery Part001Effect.requests
       Part001Effect.issued Part001Effect.signingOut Part001Effect.delaying
       Part001Effect.signingIn
       user profile session loading
       session_user currentSession session_error data error
       data_user data_session auth_error resp_error
       fst snd negb opt_user].

Ltac open_world1 w :=
  destruct w as [[[? ? ? ?] ?] ? ? ? ? ? ? ?].

Lemma remove_Forall (P : nat * (string * bool) -> Prop) k l :
  Forall P l -> Forall P (Part001Effect.remove k l).
Proof.
  induction 1 as [|[k' x] l HP Hl IH]; cbn; [done|].
  destruct (Nat.eqb k k'); [done|]. by constructor.
Qed.

Lemma pending_Forall (P : nat * (string * bool) -> Prop) k l x :
  Forall P l -> Part001Effect.pending k l = Some x -> exists k', P (k', x).
Proof.
  induction 1 as [|[k' y] l HP Hl IH]; cbn; [done|].
  destruct (Nat.eqb k k'); [|done]. intros [= ->]. by exists k'.
Qed.

Lemma listener_keeps_loading (w : Part001Effect.World1) (e : Part001Effect.Event1) :
  Part001Effect.startup_over w ->
  Part001Effect.listener_event e = true ->
  Part001Effect.startup_over (Part001Effect.step1 w e) /\
  loading (Part001Effect.auth (Part001Effect.cells (Part001Effect.step1 w e))) =
  loading (Part001Effect.auth (Part001Effect.cells w)).
Proof.
  unfold Part001Effect.startup_over.
  destruct w as [[[u p x l] i] m q rs n a b c]. cbn. intros [-> Hf].
  destruct e as [r|ev y|k r| | | | |]; try done; intros _.
  - destruct m, y as [[[v|] tok]|]; segment1; split_and!; try done.
    apply Forall_app. split; [done|]. by repeat constructor.
  - destruct (Part001Effect.pending k rs) as [[userId initial]|] eqn:Hp.
    + destruct (pending_Forall _ _ _ _ Hf Hp) as [k' Hi]. cbn in Hi. subst.
      pose proof (remove_Forall _ k _ Hf).
      destruct r as [[[row|] [e|]]|e]; segment1; rewrite Hp; done.
    + segment1. rewrite Hp. done.
Qed.

Lemma listener_keeps_loading_run (es : list Part001Effect.Event1)
    (w : Part001Effect.World1) :
  Part001Effect.startup_over w ->
  forallb Part001Effect.listener_event es = true ->
  Part001Effect.startup_over (Part001Effect.run1 w es) /\
  loading (Part001Effect.auth (Part001Effect.cells (Part001Effect.run1 w es))) =
  loading (Part001Effect.auth (Part001Effect.cells w)).
Proof.
  revert w. induction es as [|e es IH]; intros w Hw Hes; [done|].
  cbn in Hes. apply andb_true_iff in Hes as [He Hes].
  destruct (listener_keeps_loading w e Hw He) as [Hw' Hl].
  destruct (IH _ Hw' Hes) as [Hs' Hl'].
  change (Part001Effect.run1 w (e :: es))
    with (Part001Effect.run1 (Part001Effect.step1 w e) es).
  split; [done|]. by rewrite Hl'.
Qed.

(** X19: in the second implementation the listener and [fetchProfile]
    test the [initializing] of the first render, which is [true], so
    once [getInitialSession] has finished no pushed session change
    and no profile result changes [loading].  In particular, after a
    successful [signIn] (which leaves [loading] raised for the
    listener) [loading] stays true through any such events.  Had the
    closure seen [initializing = false], a push without user would
    lower it. *)
Theorem listener_never_lowers_loading (w : Part001Effect.World1)
    (es : list Part001Effect.Event1) :
  Part001Effect.startup_over w ->
  forallb Part001Effect.listener_event es = true ->
  loading (Part001Effect.auth (Part001Effect.cells (Part001Effect.run1 w es))) =
    loading (Part001Effect.auth (Part001Effect.cells w)) /\
  (forall email password r0 resp u x,
     data_user resp = Some u -> data_session resp = Some x ->
     auth_error resp = None ->
     loading (Part001Effect.auth (Part001Effect.cells
       (Part001Effect.run1 w
          ([Part001Effect.CallSignIn email password;
            Part001Effect.SignOutFirstSettled (Resolved r0);
            Part001Effect.DelayElapsed;
            Part001Effect.SignInSettled (Resolved resp)] ++ es)))) = true) /\
  (forall v event,
     Part001Effect.mounted v = true ->
     loading (Part001Effect.auth (Part001Effect.cells
       (Part001Effect.st_exec (Part001Effect.listener false event None) v))) = false).
Proof.
  intros Hw Hes. split_and!.
  - by apply listener_keeps_loading_run.
  - intros email password r0 [du ds de] u x. cbn [data_user data_session auth_error].
    intros -> -> ->.
    set (w4 := Part001Effect.run1 w
                 [Part001Effect.CallSignIn email password;
                  Part001Effect.SignOutFirstSettled (Resolved r0);
                  Part001Effect.DelayElapsed;
                  Part001Effect.SignInSettled
                    (Resolved {| data_user := Some u; data_session := Some x;
                                 auth_error := None |})]).
    change (loading (Part001Effect.auth (Part001Effect.cells
              (Part001Effect.run1 w4 es))) = true).
    assert (Part001Effect.startup_over w4 /\
            loading (Part001Effect.auth (Part001Effect.cells w4)) = true)
      as [Hw4 Hl4].
    { subst w4. by destruct w as [[[? ? ? ?] ?] ? ? ? ? ? ? ?]. }
    destruct (listener_keeps_loading_run es w4 Hw4 Hes) as [_ ->]. exact Hl4.
  - intros v event. destruct v as [[[? ? ? ?] ?] ? ? ? ? ? ? ?]. cbn. by intros ->.
Qed.

Lemma listener_never_lowers_loading_witness :
  let w := Part001Effect.run1 Part001Effect.AuthProvider1
             [Part001Effect.QuerySettled session_absent;
              Part001Effect.CallSignIn "alice@example.org" "secret";
              Part001Effect.SignOutFirstSettled signed_out;
              Part001Effect.DelayElapsed;
              Part001Effect.SignInSettled
                (Resolved {| data_user := Some alice;
                             data_session := Some alice_session;
                             auth_error := None |})] in
  loading (Part001Effect.auth (Part001Effect.cells
    (Part001Effect.run1 w
       [Part001Effect.Pushed "SIGNED_IN" (Some alice_session);
        Part001Effect.ProfileSettled 0 (found alice_profile)]))) = true.
Proof.
  intros w.
  refine (eq_trans (proj1 (listener_never_lowers_loading w
            [Part001Effect.Pushed "SIGNED_IN" (Some alice_session);
             Part001Effect.ProfileSettled 0 (found alice_profile)] _ _)) _).
  - split; [reflexivity|constructor].
  - reflexivity.
  - reflexivity.
Defined.

(** X20: in the second implementation the continuation of a profile
    request has no guard: whenever a request started by the listener
    settles, mounted or not and whoever the user is by then,
    [profile] is overwritten with the row of the response, or with
    null when the response has none (error, rejection, abort);
    [user] and [session] are untouched, and [loading] is lowered only
    if the closure saw [initializing = false]. *)
Theorem fetchProfile_overwrites_profile (initializing : bool)
    (w : Part001Effect.World1) (k : nat) (userId : string)
    (r : Settled ProfileResponse) :
  Part001Effect.pending k (Part001Effect.requests w) = Some (userId, false) ->
  let s := Part001Effect.auth (Part001Effect.cells w) in
  Part001Effect.auth (Part001Effect.cells
    (Part001Effect.st_exec
       (Part001Effect.handle1 initializing (Part001Effect.ProfileSettled k r)) w)) =
  {| user := user s; profile := row_of r; session := session s;
     loading := if initializing then loading s else false |}.
Proof.
  destruct w as [[[u p x l] i] m q rs n a b c]. cbn. intros Hp.
  destruct initializing, r as [[[row|] [e|]]|e]; segment1; rewrite Hp; done.
Qed.

Lemma fetchProfile_overwrites_profile_witness :
  let w := Part001Effect.run1 Part001Effect.AuthProvider1
             [Part001Effect.Pushed "SIGNED_IN" (Some alice_session);
              Part001Effect.Pushed "SIGNED_IN" (Some bob_session)] in
  Part001Effect.auth (Part001Effect.cells
    (Part001Effect.step1 w (Part001Effect.ProfileSettled 0 (found alice_profile)))) =
  {| user := Some bob; profile := Some alice_profile;
     session := Some bob_session; loading := true |}.
Proof.
  intros w.
  apply (fetchProfile_overwrites_profile true w 0 "alice" (found alice_profile)).
  reflexivity.
Defined.

(** X21: start-up of the second implementation, mounted.  A session
    query that fails (error or rejection) ends in
    [{user: null, profile: null, session: null, loading: false}]; one
    that returns no user stores the session it got, a null user,
    leaves [profile] alone and lowers [loading]; one that returns a
    user stores both and keeps [loading] until the profile request
    has settled, after which [profile] is the row of the response
    (or null) and [loading] is false.  [initializing] is false as
    soon as [loading] has been lowered. *)
Theorem getInitialSession_outcomes (w : Part001Effect.World1)
    (r : Settled SessionResponse) :
  Part001Effect.mounted w = true ->
  Part001Effect.sessionQuery w = true ->
  let s := Part001Effect.auth (Part001Effect.cells w) in
  let w1 := Part001Effect.step1 w (Part001Effect.QuerySettled r) in
  (failed session_error r = true ->
   Part001Effect.cells w1 =
     {| Part001Effect.auth := Unauthenticated;
        Part001Effect.initializing := false |}) /\
  (forall resp, r = Resolved resp -> session_error resp = None ->
     opt_user (currentSession resp) = None ->
     Part001Effect.cells w1 =
       {| Part001Effect.auth :=
            {| user := None; profile := profile s;
               session := currentSession resp; loading := false |};
          Part001Effect.initializing := false |}) /\
  (forall resp u r', r = Resolved resp -> session_error resp = None ->
     opt_user (currentSession resp) = Some u ->
     Part001Effect.requests w = [] ->
     Part001Effect.auth (Part001Effect.cells w1) =
       {| user := Some u; profile := profile s;
          session := currentSession resp; loading := loading s |} /\
     Part001Effect.requests w1 = [(Part001Effect.issued w, (user_id u, true))] /\
     Part001Effect.cells
       (Part001Effect.step1 w1
          (Part001Effect.ProfileSettled (Part001Effect.issued w) r')) =
       {| Part001Effect.auth :=
            {| user := Some u; profile := row_of r';
               session := currentSession resp; loading := false |};
          Part001Effect.initializing := false |}).
Proof.
  destruct w as [[[u p x l] i] m q rs n a b c]. cbn. intros -> ->. split_and!.
  - destruct r as [[y [e|]]|e]; try done; intros _; by segment1.
  - intros [y e] -> Herr Hu. cbn in Herr, Hu. subst e.
    destruct y as [[[v|] tok]|]; try done; by segment1.
  - intros [y e] v r' -> Herr Hu ->. cbn in Herr, Hu. subst e.
    destruct y as [[[v'|] tok]|]; try done. injection Hu as ->.
    destruct r' as [[[row|] [e|]]|e]; segment1; cbn;
      by rewrite Nat.eqb_refl.
Qed.

Lemma getInitialSession_outcomes_witness :
  Part001Effect.cells
    (Part001Effect.step1 Part001Effect.AuthProvider1
       (Part001Effect.QuerySettled (Rejected network_error))) =
  {| Part001Effect.auth := Unauthenticated; Part001Effect.initializing := false |}.
Proof.
  apply (proj1 (getInitialSession_outcomes Part001Effect.AuthProvider1
                  (Rejected network_error) eq_refl eq_refl)).
  reflexivity.
Defined.

(** X22: [signIn] of the second implementation signs out first and
    ignores the result of that call unless it is rejected; it never
    writes [user], [profile] or [session]; a rejection at any stage
    and every failure of [signInWithPassword] lower [loading] and are
    returned as [{error}], while success returns [{error: null}] and
    leaves [loading] raised. *)
Theorem Part001_signIn_stages (w : Part001Effect.World1)
    (email password : string) (r0 : Settled ErrorResponse)
    (r : Settled AuthResponse) :
  let s := Part001Effect.auth (Part001Effect.cells w) in
  let raised b := {| user := user s; profile := profile s;
                     session := session s; loading := b |} in
  let w1 := Part001Effect.step1 w (Part001Effect.CallSignIn email password) in
  let w2 := Part001Effect.step1 w1 (Part001Effect.SignOutFirstSettled r0) in
  let w3 := Part001Effect.step1 w2 Part001Effect.DelayElapsed in
  let w4 := Part001Effect.step1 w3 (Part001Effect.SignInSettled r) in
  Part001Effect.auth (Part001Effect.cells w1) = raised true /\
  (forall e, r0 = Rejected e ->
     Part001Effect.auth (Part001Effect.cells w2) = raised false /\
     Part001Effect.delaying w2 = Part001Effect.delaying w /\
     Part001Effect.st_completion (Part001Effect.signIn_resume_signOut r0) w1 =
       Normal (Some (Some e))) /\
  (forall resp0, r0 = Resolved resp0 ->
     Part001Effect.auth (Part001Effect.cells w3) = raised true /\
     Part001Effect.auth (Part001Effect.cells w4) = raised (negb (signIn_failed r)) /\
     exists res,
       Part001Effect.st_completion (Part001Effect.signIn_resume r) w3 =
         Normal (Some res) /\
       (res = None <-> signIn_failed r = false)).
Proof.
  destruct w as [[[u p x l] i] m q rs n a b c]. cbn. split_and!.
  - by segment1.
  - intros e ->. by segment1.
  - intros resp0 ->. destruct r as [[[?|] [?|] [?|]]|?]; segment1;
      split_and!; try done; eexists; (split; [reflexivity|]); done.
Qed.
